(** * AsarVersioner: reading one JSON entry out of an asar archive

    A shallow embedding of [SharedProcessors/AsarVersioner.py]:
    [_asar_opener], [_extract_package_json], [get_asar_info] and [main].

    - A Python [bytes] object is a [list byte]; a Python [str] is a Rocq
      [string].
    - Python integers are unbounded, hence [Z].
    - An open file is an object on a heap of file objects; the variable
      [asar_file] holds a reference to it (an index into the heap).  The heap
      is part of the state that every operation threads, so that the state in
      which an exception leaves a function can be inspected.
    - Exceptions are results: a computation returns [Ok v] or [Raise e].
    - [struct.unpack('I', _)] uses the byte order of the machine; the
      embedding fixes a little-endian machine with a 4-byte [unsigned int]
      and a 64-bit [Py_ssize_t].
    - The functions of the Python library that decode text and JSON
      ([bytes.decode], [json.loads], [int] on a [str]) are an interface
      ([PyLib]), together with two limits of the machine: the largest
      [bytes] object that a [read] can allocate and the largest offset that
      the file system accepts.  The theorems hold for every implementation
      of the interface.  One implementation, for a fragment of JSON, is
      given in [Fragment] and is used to evaluate the code on concrete
      archives. *)

From Stdlib Require Import ZArith List Bool Lia.
From Stdlib.Strings Require Import String Ascii Byte.
From Stdlib Require Import Floats.SpecFloat.
Import ListNotations.

#[local] Set Warnings "-register-all".
#[local] Open Scope string_scope.
#[local] Open Scope Z_scope.

(** ** Python values *)

Definition bytes := list byte.

(** What [json.loads] returns: [None], [bool], [int], [float], [str], [list]
    and [dict].  A [dict] is kept as its list of items, in insertion order,
    with no key twice. *)
Inductive value : Type :=
| VNone
| VBool (b : bool)
| VInt (n : Z)
| VFloat (f : spec_float)
| VStr (s : string)
| VList (l : list value)
| VDict (d : list (string * value)).

(** The exception classes that the code can meet.  Library exceptions are
    identified by their class, their message texts are not modelled.  A
    [ProcessorError] is built from an f-string that ends with the rendering of
    a caught exception ([f"...: {error}"]), or from the exception alone
    ([ProcessorError(ex)]): it keeps the literal text and the exception. *)
Inductive exn : Type :=
| OSError
| ValueError
| TypeError
| AttributeError
| OverflowError
| KeyError (key : string)
| UnicodeDecodeError
| JSONDecodeError
| IndexError
| MemoryError
| struct_error
| UnboundLocalError (name : string)
| ProcessorError (text : string) (cause : option exn).

Inductive result (A : Type) : Type :=
| Ok (a : A)
| Raise (e : exn).
Arguments Ok {A} a.
Arguments Raise {A} e.

Definition is_ProcessorError (e : exn) : bool :=
  match e with ProcessorError _ _ => true | _ => false end.

(** [UnboundLocalError] is a subclass of [NameError]; the code meets no other
    member of that class. *)
Definition is_NameError (e : exn) : bool :=
  match e with UnboundLocalError _ => true | _ => false end.

Definition is_Ok {A} (r : result A) : bool :=
  match r with Ok _ => true | Raise _ => false end.

(** *** Dictionaries *)

Fixpoint dict_get {V} (d : list (string * V)) (k : string) : option V :=
  match d with
  | [] => None
  | (k', v) :: d' => if String.eqb k' k then Some v else dict_get d' k
  end.

(** [d[k] = v]: an existing key keeps its place. *)
Fixpoint dict_set {V} (d : list (string * V)) (k : string) (v : V)
  : list (string * V) :=
  match d with
  | [] => [(k, v)]
  | (k', v') :: d' =>
      if String.eqb k' k then (k', v) :: d' else (k', v') :: dict_set d' k v
  end.

(** [obj[key]] for a [str] key. *)
Definition py_getitem (obj : value) (key : string) : result value :=
  match obj with
  | VDict d =>
      match dict_get d key with
      | Some v => Ok v
      | None => Raise (KeyError key)
      end
  | _ => Raise TypeError
  end.

(** [obj.get(key)]: only a [dict] has the method. *)
Definition py_get (obj : value) (key : string) : result value :=
  match obj with
  | VDict d =>
      match dict_get d key with
      | Some v => Ok v
      | None => Ok VNone
      end
  | _ => Raise AttributeError
  end.

(** [obj.get(key, default)]. *)
Definition py_get_default (obj : value) (key : string) (default : value)
  : result value :=
  match obj with
  | VDict d =>
      match dict_get d key with
      | Some v => Ok v
      | None => Ok default
      end
  | _ => Raise AttributeError
  end.

(** *** Integers *)

(** The bounds of [Py_ssize_t], and of [off_t], on a 64-bit machine. *)
Definition PY_SSIZE_T_MAX : Z := 2 ^ 63 - 1.
Definition PY_SSIZE_T_MIN : Z := - 2 ^ 63.

(** [int(f)] for a float: truncation towards zero. *)
Definition int_of_float (f : spec_float) : result Z :=
  match f with
  | S754_zero _ => Ok 0
  | S754_infinity _ => Raise OverflowError
  | S754_nan => Raise ValueError
  | S754_finite s m e =>
      let a := if 0 <=? e then Z.shiftl (Z.pos m) e
               else Z.shiftr (Z.pos m) (- e) in
      Ok (if s then - a else a)
  end.

(** ** The library and the machine *)

Class PyLib : Type := {
  (** [b.decode('utf-8')] *)
  decode_utf8 : bytes -> option string;
  (** [b.decode(json.detect_encoding(b), 'surrogatepass')], the first step of
      [json.loads] on a [bytes] argument *)
  decode_detected : bytes -> option string;
  (** [json.loads] on a [str] *)
  json_decode : string -> option value;
  (** [int] on a [str] *)
  int_of_str : string -> option Z;
  (** the largest [bytes] object that a [read] can allocate on the machine *)
  max_bytes : Z;
  (** the largest offset that the file system accepts in a [seek] *)
  max_offset : Z;
  max_bytes_range : 4 <= max_bytes <= PY_SSIZE_T_MAX;
  max_offset_range : 16 <= max_offset <= PY_SSIZE_T_MAX
}.

Section Library.
Context {lib : PyLib}.

Definition bytes_decode (b : bytes) : result string :=
  match decode_utf8 b with
  | Some s => Ok s
  | None => Raise UnicodeDecodeError
  end.

Definition json_loads (s : string) : result value :=
  match json_decode s with
  | Some v => Ok v
  | None => Raise JSONDecodeError
  end.

(** [json.loads] on [bytes]: decode with the detected encoding, then parse. *)
Definition json_loads_bytes (b : bytes) : result value :=
  match decode_detected b with
  | Some s => json_loads s
  | None => Raise UnicodeDecodeError
  end.

(** [int(x)] *)
Definition py_int (x : value) : result Z :=
  match x with
  | VInt n => Ok n
  | VBool b => Ok (if b then 1 else 0)
  | VFloat f => int_of_float f
  | VStr s =>
      match int_of_str s with
      | Some n => Ok n
      | None => Raise ValueError
      end
  | VNone | VList _ | VDict _ => Raise TypeError
  end.

End Library.

(** ** [struct.unpack] *)

(** The little-endian number that a byte string denotes. *)
Fixpoint le_uint (b : bytes) : Z :=
  match b with
  | [] => 0
  | x :: b' => Z.of_N (Byte.to_N x) + 256 * le_uint b'
  end.

(** [struct.unpack('I', b)]: a tuple of one number; the buffer must have
    exactly the 4 bytes of the format. *)
Definition struct_unpack_I (b : bytes) : result (list Z) :=
  if Nat.eqb (List.length b) 4 then Ok [le_uint b] else Raise struct_error.

(** ** File objects *)

Record file_obj : Type := File {
  f_data : bytes;
  f_pos : Z;
  f_closed : bool
}.

(** One operation on one file object. *)
Definition file_op (A : Type) : Type := file_obj -> result A * file_obj.

Section FileOperations.
Context {lib : PyLib}.

(** [f.seek(offset)].  An offset that does not fit the offset type is a
    [ValueError]; a negative one, and one beyond what the file system
    accepts, is refused by the system ([OSError]); seeking past the end of
    the file is allowed. *)
Definition file_seek (offset : Z) : file_op Z := fun f =>
  if f_closed f then (Raise ValueError, f)
  else if (offset <? PY_SSIZE_T_MIN) || (PY_SSIZE_T_MAX <? offset)
  then (Raise ValueError, f)
  else if (offset <? 0) || (max_offset <? offset) then (Raise OSError, f)
  else (Ok offset, File (f_data f) offset false).

(** [f.tell()] *)
Definition file_tell : file_op Z := fun f =>
  if f_closed f then (Raise ValueError, f) else (Ok (f_pos f), f).

(** The bytes from the cursor on. *)
Definition file_rest (f : file_obj) : bytes :=
  skipn (Z.to_nat (f_pos f)) (f_data f).

(** [f.read(size)] of a buffered binary file: [None] and [-1] read to the end
    of the file, another negative size is refused, and fewer than [size]
    bytes are returned when the file ends first.  The size is checked before
    the file is.  A buffer of [size] bytes is allocated before the file is
    read, and one for the rest of the file when all of it is read: that fails
    with [MemoryError] beyond [max_bytes]. *)
Definition file_read (size : option Z) : file_op bytes := fun f =>
  let deliver (room : Z) (b : bytes) :=
    if f_closed f then (Raise ValueError, f)
    else if max_bytes <? room then (Raise MemoryError, f)
    else (Ok b, File (f_data f) (f_pos f + Z.of_nat (List.length b)) false) in
  let all := deliver (Z.of_nat (List.length (file_rest f))) (file_rest f) in
  match size with
  | None => all
  | Some n =>
      if (n <? PY_SSIZE_T_MIN) || (PY_SSIZE_T_MAX <? n)
      then (Raise OverflowError, f)
      else if n <? -1 then (Raise ValueError, f)
      else if n =? -1 then all
      else deliver n (firstn (Z.to_nat n) (file_rest f))
  end.

End FileOperations.

(** [f.close()]; closing twice is allowed. *)
Definition file_close : file_op unit := fun f =>
  (Ok tt, File (f_data f) (f_pos f) true).

(** The [size] argument of [read] as Python converts it: [None], or an object
    with [__index__] (an [int], and [bool] as its subclass). *)
Definition read_size (v : value) : result (option Z) :=
  match v with
  | VNone => Ok None
  | VInt n => Ok (Some n)
  | VBool b => Ok (Some (if b then 1 else 0))
  | _ => Raise TypeError
  end.

(** ** The state and its monad *)

Definition handle := nat.

(** The files on disk (never written by this code) and the file objects
    created so far. *)
Record world : Type := World {
  w_fs : list (string * bytes);
  w_heap : list file_obj
}.

Definition M (A : Type) : Type := world -> result A * world.

Definition ret {A} (a : A) : M A := fun w => (Ok a, w).

Definition raise {A} (e : exn) : M A := fun w => (Raise e, w).

Definition bind {A B} (c : M A) (k : A -> M B) : M B := fun w =>
  match c w with
  | (Ok a, w') => k a w'
  | (Raise e, w') => (Raise e, w')
  end.

Definition lift {A} (r : result A) : M A := fun w => (r, w).

Notation "x <- c ;; k" := (bind c (fun x => k))
  (at level 61, c at next level, right associativity).
Notation "' p <- c ;; k" := (bind c (fun x => match x with p => k end))
  (at level 61, p pattern, c at next level, right associativity).

(** [try: c except Exception as error: handler(error)] *)
Definition try_except {A} (c : M A) (handler : exn -> M A) : M A := fun w =>
  match c w with
  | (Ok a, w') => (Ok a, w')
  | (Raise e, w') => handler e w'
  end.

(** [try: c finally: cleanup]; an exception of the cleanup replaces the
    outcome of [c]. *)
Definition try_finally {A} (c : M A) (cleanup : M unit) : M A := fun w =>
  match c w with
  | (r, w') =>
      match cleanup w' with
      | (Ok _, w'') => (r, w'')
      | (Raise e, w'') => (Raise e, w'')
      end
  end.

Fixpoint heap_set (hp : list file_obj) (h : handle) (f : file_obj)
  : list file_obj :=
  match hp, h with
  | [], _ => []
  | _ :: hp', O => f :: hp'
  | g :: hp', S h' => g :: heap_set hp' h' f
  end.

(** An operation on the file object that [h] refers to.  A reference always
    refers to an object; the [None] branch is never taken by the code. *)
Definition on_file {A} (h : handle) (op : file_op A) : M A := fun w =>
  match nth_error (w_heap w) h with
  | Some f =>
      let (r, f') := op f in (r, World (w_fs w) (heap_set (w_heap w) h f'))
  | None => (Raise ValueError, w)
  end.

(** [open(path, 'rb')]: a new file object on the file's bytes, or [OSError]
    when the path cannot be opened. *)
Definition open_rb (path : string) : M handle := fun w =>
  match dict_get (w_fs w) path with
  | Some data =>
      (Ok (List.length (w_heap w)),
       World (w_fs w) (w_heap w ++ [File data 0 false]))
  | None => (Raise OSError, w)
  end.

(** Is the file object of [h] open in [w]? *)
Definition is_open (w : world) (h : handle) : bool :=
  match nth_error (w_heap w) h with
  | Some f => negb (f_closed f)
  | None => false
  end.

(** No file object of [w] is open. *)
Definition all_closed (w : world) : bool := forallb f_closed (w_heap w).

(** ** The processor *)

Definition UNKNOWN_VERSION : string := "UNKNOWN_VERSION".

(** [self.env]: the input variables, with the default of [version_key]
    ("version") filled in by the framework, and the output variable. *)
Record env : Type := Env {
  input_asar_path : string;
  package_json : string;
  version_key : string;
  skip_single_root_dir : bool;
  version : option value
}.

(** The default of the input variable [version_key]. *)
Definition version_key_default : string := "version".

Definition set_version (e : env) (v : value) : env :=
  Env (input_asar_path e) (package_json e) (version_key e)
      (skip_single_root_dir e) (Some v).

(** Reading a local variable of a function: a name that has no value raises
    [UnboundLocalError]. *)
Definition load_local {A} (name : string) (slot : option A) : M A :=
  match slot with
  | Some v => ret v
  | None => raise (UnboundLocalError name)
  end.

Section AsarVersioner.
Context {lib : PyLib}.

(** [_asar_opener] from the guard of line 111 on: [header_size] is the tuple
    that [struct.unpack] returned, and [error] the local variable of that
    name. *)
Definition asar_opener_header (path : string) (asar_file : handle)
    (error : option exn) (header_size : list Z) : M (handle * value * Z) :=
  _ <- (if Z.of_nat (List.length header_size) <=? 0
        then
          error <- load_local "error" error ;;
          raise (ProcessorError
                   ("Can't determine header size of " ++ path ++ ": ")
                   (Some error))
        else ret tt) ;;
  (* substract 8 bytes from the header size *)
  header_size <- match header_size with
                 | n :: _ => ret (n - 8)
                 | [] => raise IndexError
                 end ;;
  (* skip 8 bytes because of pickle padding *)
  pos <- on_file asar_file file_tell ;;
  _ <- on_file asar_file (file_seek (pos + 8)) ;;
  raw <- on_file asar_file (file_read (Some header_size)) ;;
  header <- lift (bytes_decode raw) ;;
  json_header <- lift (json_loads header) ;;
  base_offset <- on_file asar_file file_tell ;;
  ret (asar_file, json_header, base_offset).

Definition _asar_opener (path : string) : M (handle * value * Z) :=
  asar_file <- try_except (open_rb path)
                 (fun error =>
                    raise (ProcessorError ("Can't read " ++ path ++ ": ")
                             (Some error))) ;;
  (* the name bound by [except ... as error] has no value outside the
     clause, and the clause has not run when control is here *)
  let error : option exn := None in
  (* the first field is a 32-bit unsigned integer, so we skip it *)
  _ <- on_file asar_file (file_seek 4) ;;
  raw <- on_file asar_file (file_read (Some 4)) ;;
  header_size <- lift (struct_unpack_I raw) ;;
  asar_opener_header path asar_file error header_size.

(** [json_header["files"][self.env["package_json"]]] *)
Definition lookup_entry (e : env) (json_header : value) : result value :=
  match py_getitem json_header "files" with
  | Ok files => py_getitem files (package_json e)
  | Raise x => Raise x
  end.

Definition _extract_package_json (e : env) (asar_file : handle)
    (json_header : value) (base_offset : Z) : M value :=
  package_json <- try_except (lift (lookup_entry e json_header))
                    (fun error =>
                       raise (ProcessorError "Can't find package JSON: "
                                (Some error))) ;;
  (* the actual offset for the start of the file *)
  offset <- lift (py_get package_json "offset") ;;
  offset <- lift (py_int offset) ;;
  let absolute_offset := offset + base_offset in
  _ <- on_file asar_file (file_seek absolute_offset) ;;
  size <- lift (py_get package_json "size") ;;
  size <- lift (read_size size) ;;
  raw <- on_file asar_file (file_read size) ;;
  lift (json_loads_bytes raw).

Definition get_asar_info (e : env) (asar_path : string) : M value :=
  ' (asar_file, json_header, base_offset) <- _asar_opener asar_path ;;
  try_finally
    (try_except (_extract_package_json e asar_file json_header base_offset)
       (fun error =>
          raise (ProcessorError "Can't extract package info: " (Some error))))
    (on_file asar_file file_close).

(** The value that [main] stores as [version]: [asar_dict.get(version_key,
    UNKNOWN_VERSION)]. *)
Definition version_of (e : env) (asar_dict : value) : result value :=
  py_get_default asar_dict (version_key e) (VStr UNKNOWN_VERSION).

Section Main.
(** [Versioner._read_auto_detect] of the base class, which finds the file
    (possibly inside a disk image or an archive) and returns what the reader
    returns on it, and [None] when there is no such file. *)
Variable _read_auto_detect :
  string -> bool -> (string -> M value) -> M value.

(** [main]; the new [self.env] is the result.  ([self.output] only logs.) *)
Definition main (e : env) : M env :=
  try_except
    (asar_dict <- _read_auto_detect (input_asar_path e)
                    (skip_single_root_dir e) (get_asar_info e) ;;
     match asar_dict with
     | VNone =>
         raise (ProcessorError
                  ("File '" ++ input_asar_path e ++ "' was not found.") None)
     | _ =>
         v <- lift (version_of e asar_dict) ;;
         ret (set_version e v)
     end)
    (fun ex =>
       if is_ProcessorError ex then raise ex
       else raise (ProcessorError "" (Some ex))).

End Main.

End AsarVersioner.

(** ** An implementation of the library for a fragment of JSON

    The fragment: ASCII texts made of objects, arrays, strings without
    escapes, integers without fraction or exponent, [true], [false] and
    [null].  On a text of the fragment the functions follow CPython's
    decoder; a text outside of the fragment is rejected (CPython accepts
    more: other encodings, escapes, floats, [NaN], [Infinity]).  The instance
    serves to run the processor on concrete archives. *)
Module Fragment.

Definition code (c : ascii) : Z := Z.of_N (N_of_ascii c).

Definition is_ascii_byte (x : byte) : bool := Z.of_N (Byte.to_N x) <? 128.

Definition is_nul (x : byte) : bool := Z.of_N (Byte.to_N x) =? 0.

Definition ascii_text (b : bytes) : option string :=
  if forallb is_ascii_byte b then Some (string_of_list_byte b) else None.

(** [json.detect_encoding] answers 'utf-8' unless the text starts with a byte
    order mark (never ASCII) or with one of the patterns of NUL bytes that
    mark UTF-16 and UTF-32. *)
Definition nul_pattern (b : bytes) : bool :=
  match b with
  | [x0; x1] => is_nul x0 || is_nul x1
  | x0 :: x1 :: _ :: _ :: _ => is_nul x0 || is_nul x1
  | _ => false
  end.

Definition detected_text (b : bytes) : option string :=
  if nul_pattern b then None else ascii_text b.

Definition is_ws (c : ascii) : bool :=
  let n := code c in (n =? 32) || (n =? 9) || (n =? 10) || (n =? 13).

Definition is_digit (c : ascii) : bool :=
  let n := code c in (48 <=? n) && (n <=? 57).

Definition quote : ascii := "034"%char.

Fixpoint skip_ws (s : string) : string :=
  match s with
  | String c s' => if is_ws c then skip_ws s' else s
  | EmptyString => s
  end.

(** The digits at the head of [s], read after the number [acc]. *)
Fixpoint scan_digits (acc : Z) (s : string) : Z * string :=
  match s with
  | String c s' =>
      if is_digit c then scan_digits (10 * acc + (code c - 48)) s'
      else (acc, s)
  | EmptyString => (acc, s)
  end.

(** [0], or a digit that is not [0] followed by digits; what follows must not
    continue the number into a float. *)
Definition scan_natural (s : string) : option (Z * string) :=
  match s with
  | String c s' =>
      if is_digit c then
        let (n, rest) :=
          if code c =? 48 then (0, s') else scan_digits (code c - 48) s' in
        match rest with
        | String d _ =>
            if (code d =? 46) || (code d =? 101) || (code d =? 69)
            then None else Some (n, rest)
        | EmptyString => Some (n, rest)
        end
      else None
  | EmptyString => None
  end.

Definition scan_number (s : string) : option (value * string) :=
  match s with
  | String "-" s' =>
      match scan_natural s' with
      | Some (n, rest) => Some (VInt (- n), rest)
      | None => None
      end
  | _ =>
      match scan_natural s with
      | Some (n, rest) => Some (VInt n, rest)
      | None => None
      end
  end.

(** The characters of a string up to its closing quote. *)
Fixpoint scan_string (s : string) : option (string * string) :=
  match s with
  | EmptyString => None
  | String c s' =>
      if Ascii.eqb c quote then Some (EmptyString, s')
      else if (code c <? 32) || (127 <? code c) || (code c =? 92) then None
      else
        match scan_string s' with
        | Some (str, rest) => Some (String c str, rest)
        | None => None
        end
  end.

(** [s] without the prefix [p]. *)
Fixpoint expect (p s : string) : option string :=
  match p, s with
  | EmptyString, _ => Some s
  | String a p', String b s' => if Ascii.eqb a b then expect p' s' else None
  | String _ _, EmptyString => None
  end.

Fixpoint scan_value (fuel : nat) (s : string) : option (value * string) :=
  match fuel with
  | O => None
  | S fuel' =>
      match s with
      | EmptyString => None
      | String c s' =>
          if Ascii.eqb c quote then
            match scan_string s' with
            | Some (str, rest) => Some (VStr str, rest)
            | None => None
            end
          else if Ascii.eqb c "{" then
            match skip_ws s' with
            | String "}" rest => Some (VDict [], rest)
            | s'' =>
                match scan_members fuel' [] s'' with
                | Some (d, rest) => Some (VDict d, rest)
                | None => None
                end
            end
          else if Ascii.eqb c "[" then
            match skip_ws s' with
            | String "]" rest => Some (VList [], rest)
            | s'' =>
                match scan_elements fuel' [] s'' with
                | Some (l, rest) => Some (VList l, rest)
                | None => None
                end
            end
          else if Ascii.eqb c "n" then
            option_map (pair VNone) (expect "ull" s')
          else if Ascii.eqb c "t" then
            option_map (pair (VBool true)) (expect "rue" s')
          else if Ascii.eqb c "f" then
            option_map (pair (VBool false)) (expect "alse" s')
          else scan_number s
      end
  end

(** The members of an object, from its first key on, after the members
    [acc]; a key that comes again replaces the earlier value. *)
with scan_members (fuel : nat) (acc : list (string * value)) (s : string)
  : option (list (string * value) * string) :=
  match fuel with
  | O => None
  | S fuel' =>
      match s with
      | String c s' =>
          if Ascii.eqb c quote then
            match scan_string s' with
            | Some (key, rest) =>
                match skip_ws rest with
                | String ":" rest =>
                    match scan_value fuel' (skip_ws rest) with
                    | Some (v, rest) =>
                        let acc := dict_set acc key v in
                        match skip_ws rest with
                        | String "}" rest => Some (acc, rest)
                        | String "," rest =>
                            scan_members fuel' acc (skip_ws rest)
                        | _ => None
                        end
                    | None => None
                    end
                | _ => None
                end
            | None => None
            end
          else None
      | EmptyString => None
      end
  end

(** The elements of an array, from the first one on, after the elements
    [acc] (kept in reverse). *)
with scan_elements (fuel : nat) (acc : list value) (s : string)
  : option (list value * string) :=
  match fuel with
  | O => None
  | S fuel' =>
      match scan_value fuel' s with
      | Some (v, rest) =>
          match skip_ws rest with
          | String "]" rest => Some (rev (v :: acc), rest)
          | String "," rest => scan_elements fuel' (v :: acc) (skip_ws rest)
          | _ => None
          end
      | None => None
      end
  end.

(** One value, with blanks around it, and nothing else. *)
Definition decode (s : string) : option value :=
  match scan_value (2 * String.length s + 2) (skip_ws s) with
  | Some (v, rest) =>
      match skip_ws rest with
      | EmptyString => Some v
      | _ => None
      end
  | None => None
  end.

Fixpoint all_digits (s : string) : bool :=
  match s with
  | EmptyString => true
  | String c s' => is_digit c && all_digits s'
  end.

Definition digits_value (s : string) : option Z :=
  match s with
  | EmptyString => None
  | _ => if all_digits s then Some (fst (scan_digits 0 s)) else None
  end.

(** [int] on a sign and decimal digits. *)
Definition int_text (s : string) : option Z :=
  match s with
  | String "-" s' => option_map Z.opp (digits_value s')
  | String "+" s' => digits_value s'
  | _ => digits_value s
  end.

Lemma small_limits :
  4 <= 2 ^ 31 <= PY_SSIZE_T_MAX /\ 16 <= 2 ^ 40 <= PY_SSIZE_T_MAX.
Proof. unfold PY_SSIZE_T_MAX. lia. Qed.

(** A machine that reads up to 2 GiB at once, with files of up to 1 TiB. *)
#[export] Instance lib : PyLib := {
  decode_utf8 := ascii_text;
  decode_detected := detected_text;
  json_decode := decode;
  int_of_str := int_text;
  max_bytes := 2 ^ 31;
  max_offset := 2 ^ 40;
  max_bytes_range := proj1 small_limits;
  max_offset_range := proj2 small_limits
}.


(** *** Building archives *)

(** An apostrophe stands for a double quote. *)
Fixpoint js (s : string) : string :=
  match s with
  | EmptyString => EmptyString
  | String c s' => String (if Ascii.eqb c "'" then quote else c) (js s')
  end.

Definition byte_of_Z (n : Z) : byte := byte_of_ascii (ascii_of_N (Z.to_N n)).

(** The 4 bytes of [struct.pack('<I', n)]. *)
Definition le32 (n : Z) : bytes :=
  [byte_of_Z (n mod 256); byte_of_Z ((n / 256) mod 256);
   byte_of_Z ((n / 65536) mod 256); byte_of_Z ((n / 16777216) mod 256)].

Definition zeros (n : nat) : bytes := repeat x00 n.

(** An archive: the ignored field, the size field, the padding, the header
    and the data section. *)
Definition archive (size_field : Z) (header data : string) : bytes :=
  (zeros 4 ++ le32 size_field ++ zeros 8
     ++ list_byte_of_string header ++ list_byte_of_string data)%list.

(** The archive that a writer makes of a header and a data section: the size
    field is the length of the header plus 8. *)
Definition pack (header data : string) : bytes :=
  archive (Z.of_nat (String.length header) + 8) header data.

Definition disk (path : string) (data : bytes) : world :=
  World [(path, data)] [].

Definition env_for (path name : string) : env :=
  Env path name version_key_default false None.

End Fragment.

(** ** Reasoning about runs *)

(** Two outcomes that agree: the same exception, or values related by [R]. *)
Definition agree {A} (R : A -> A -> Prop) (r1 r2 : result A) : Prop :=
  match r1, r2 with
  | Ok a1, Ok a2 => R a1 a2
  | Raise e1, Raise e2 => e1 = e2
  | _, _ => False
  end.

(** [c1] and [c2] work on the file object created last, [c1] through the
    reference [h1] and [c2] through [h2]: started on the same file object
    they leave it in the same state, with outcomes that agree, and touch
    nothing else. *)
Definition sim {A} (R : A -> A -> Prop) (h1 h2 : handle) (c1 c2 : M A)
  : Prop :=
  forall fs hp1 hp2 f,
    List.length hp1 = h1 -> List.length hp2 = h2 ->
    exists r1 r2 f',
      c1 (World fs (hp1 ++ [f])) = (r1, World fs (hp1 ++ [f'])) /\
      c2 (World fs (hp2 ++ [f])) = (r2, World fs (hp2 ++ [f'])) /\
      agree R r1 r2.

(** The file object of the reference [h] in [w]. *)
Definition file_of (w : world) (h : handle) : option file_obj :=
  nth_error (w_heap w) h.

(** The bytes of a file from [from] on, at most [len] of them. *)
Definition slice (data : bytes) (from len : Z) : bytes :=
  firstn (Z.to_nat len) (skipn (Z.to_nat from) data).

(** The 4 bytes at offset 4 as a number. *)
Definition size_field (data : bytes) : Z := le_uint (slice data 4 4).

(** What [get_asar_info] makes of the outcome of the extraction. *)
Definition reported (r : result value) : result value :=
  match r with
  | Ok v => Ok v
  | Raise x => Raise (ProcessorError "Can't extract package info: " (Some x))
  end.

(** The file object [f] once closed. *)
Definition closed (f : file_obj) : file_obj :=
  File (f_data f) (f_pos f) true.

Section Runs.
Context {lib : PyLib}.

(** [get_asar_info] once [open] has returned the file object [asar_file]. *)
Definition after_open (e : env) (path : string) (asar_file : handle)
  : M value :=
  bind
    (_ <- on_file asar_file (file_seek 4) ;;
     raw <- on_file asar_file (file_read (Some 4)) ;;
     header_size <- lift (struct_unpack_I raw) ;;
     asar_opener_header path asar_file None header_size)
    (fun x =>
       match x with
       | (asar_file, json_header, base_offset) =>
           try_finally
             (try_except
                (_extract_package_json e asar_file json_header base_offset)
                (fun error =>
                   raise (ProcessorError "Can't extract package info: "
                            (Some error))))
             (on_file asar_file file_close)
       end).

(** The version that a run of [get_asar_info] leads to. *)
Definition derived_version (e : env) (r : result value) : result value :=
  match r with
  | Ok asar_dict => version_of e asar_dict
  | Raise x => Raise x
  end.

End Runs.

Create HintDb sim.

(** * Properties *)

Lemma agree_eq {A} (r1 r2 : result A) : agree eq r1 r2 -> r1 = r2.
Proof.
  destruct r1, r2; simpl; intros H; try contradiction; now subst.
Qed.

(** ** The heap *)

Lemma nth_error_last (hp : list file_obj) f :
  nth_error (hp ++ [f]) (List.length hp) = Some f.
Proof.
  induction hp as [|g hp IH]; simpl; auto.
Qed.

Lemma heap_set_last (hp : list file_obj) f g :
  heap_set (hp ++ [f]) (List.length hp) g = (hp ++ [g])%list.
Proof.
  induction hp as [|x hp IH]; simpl; [reflexivity | now rewrite IH].
Qed.

Lemma on_file_last {A} (op : file_op A) fs hp f :
  on_file (List.length hp) op (World fs (hp ++ [f]))
  = (fst (op f), World fs (hp ++ [snd (op f)])).
Proof.
  unfold on_file; simpl.
  rewrite nth_error_last.
  destruct (op f) as [r f']; simpl.
  now rewrite heap_set_last.
Qed.

Lemma open_rb_ok path fs hp data :
  dict_get fs path = Some data ->
  open_rb path (World fs hp)
  = (Ok (List.length hp), World fs (hp ++ [File data 0 false])).
Proof.
  intros H. unfold open_rb; simpl. now rewrite H.
Qed.

Lemma bind_assoc {A B C} (c : M A) (k1 : A -> M B) (k2 : B -> M C) w :
  bind (bind c k1) k2 w = bind c (fun a => bind (k1 a) k2) w.
Proof.
  unfold bind. destruct (c w) as [[a|e] w']; reflexivity.
Qed.

(** ** Simulation *)

Section Sim.
Variables h1 h2 : handle.

Lemma sim_on_file {A} (op : file_op A) :
  sim eq h1 h2 (on_file h1 op) (on_file h2 op).
Proof.
  intros fs hp1 hp2 f <- <-.
  exists (fst (op f)), (fst (op f)), (snd (op f)).
  rewrite !on_file_last. repeat split.
  destruct (fst (op f)); reflexivity.
Qed.

Lemma sim_lift {A} (r : result A) : sim eq h1 h2 (lift r) (lift r).
Proof.
  intros fs hp1 hp2 f _ _. exists r, r, f. repeat split.
  destruct r; reflexivity.
Qed.

Lemma sim_ret {A} (R : A -> A -> Prop) a1 a2 :
  R a1 a2 -> sim R h1 h2 (ret a1) (ret a2).
Proof.
  intros H fs hp1 hp2 f _ _. exists (Ok a1), (Ok a2), f. repeat split.
  exact H.
Qed.

Lemma sim_raise {A} (R : A -> A -> Prop) e :
  sim R h1 h2 (raise e) (raise e).
Proof.
  intros fs hp1 hp2 f _ _. exists (Raise e), (Raise e), f. repeat split.
Qed.

Lemma sim_bind {A B} (R : A -> A -> Prop) (S : B -> B -> Prop)
    (c1 c2 : M A) (k1 k2 : A -> M B) :
  sim R h1 h2 c1 c2 ->
  (forall a1 a2, R a1 a2 -> sim S h1 h2 (k1 a1) (k2 a2)) ->
  sim S h1 h2 (bind c1 k1) (bind c2 k2).
Proof.
  intros Hc Hk fs hp1 hp2 f E1 E2.
  destruct (Hc fs hp1 hp2 f E1 E2) as (r1 & r2 & f' & H1 & H2 & Hr).
  unfold bind. rewrite H1, H2.
  destruct r1 as [a1|e1], r2 as [a2|e2]; simpl in Hr; try contradiction.
  - exact (Hk a1 a2 Hr fs hp1 hp2 f' E1 E2).
  - subst e2. exists (Raise e1), (Raise e1), f'. repeat split.
Qed.

Lemma sim_try_except {A} (R : A -> A -> Prop)
    (c1 c2 : M A) (k1 k2 : exn -> M A) :
  sim R h1 h2 c1 c2 ->
  (forall e, sim R h1 h2 (k1 e) (k2 e)) ->
  sim R h1 h2 (try_except c1 k1) (try_except c2 k2).
Proof.
  intros Hc Hk fs hp1 hp2 f E1 E2.
  destruct (Hc fs hp1 hp2 f E1 E2) as (r1 & r2 & f' & H1 & H2 & Hr).
  unfold try_except. rewrite H1, H2.
  destruct r1 as [a1|e1], r2 as [a2|e2]; simpl in Hr; try contradiction.
  - exists (Ok a1), (Ok a2), f'. repeat split. exact Hr.
  - subst e2. exact (Hk e1 fs hp1 hp2 f' E1 E2).
Qed.

Lemma sim_try_finally {A} (R : A -> A -> Prop)
    (c1 c2 : M A) (d1 d2 : M unit) :
  sim R h1 h2 c1 c2 ->
  sim eq h1 h2 d1 d2 ->
  sim R h1 h2 (try_finally c1 d1) (try_finally c2 d2).
Proof.
  intros Hc Hd fs hp1 hp2 f E1 E2.
  destruct (Hc fs hp1 hp2 f E1 E2) as (r1 & r2 & f' & H1 & H2 & Hr).
  destruct (Hd fs hp1 hp2 f' E1 E2) as (u1 & u2 & f'' & D1 & D2 & Hu).
  unfold try_finally. rewrite H1, H2, D1, D2.
  destruct u1 as [[]|x1], u2 as [[]|x2]; simpl in Hu; try contradiction.
  - exists r1, r2, f''. repeat split. exact Hr.
  - subst x2. exists (Raise x1), (Raise x1), f''. repeat split.
Qed.

End Sim.

#[local] Hint Resolve sim_on_file sim_lift sim_raise : sim.

Ltac sim_step :=
  first
    [ eapply sim_bind with (R := eq);
      [ solve [auto with sim] | intros ? ? <- ]
    | solve [auto with sim] ].

Section RunLemmas.
Context {lib : PyLib}.

Lemma sim_extract e hdr base h1 h2 :
  sim eq h1 h2 (_extract_package_json e h1 hdr base)
               (_extract_package_json e h2 hdr base).
Proof.
  unfold _extract_package_json.
  eapply sim_bind with (R := eq).
  { apply sim_try_except; auto with sim. }
  intros ? ? <-. repeat sim_step.
Qed.

Lemma sim_opener_header path err t h1 h2 :
  sim (fun x1 x2 => exists hdr b, x1 = (h1, hdr, b) /\ x2 = (h2, hdr, b))
      h1 h2
      (asar_opener_header path h1 err t) (asar_opener_header path h2 err t).
Proof.
  unfold asar_opener_header.
  eapply sim_bind with (R := eq).
  { destruct (Z.of_nat (List.length t) <=? 0).
    - eapply sim_bind with (R := eq).
      + destruct err; [apply sim_ret; reflexivity | apply sim_raise].
      + intros ? ? <-. apply sim_raise.
    - apply sim_ret; reflexivity. }
  intros ? ? <-.
  eapply sim_bind with (R := eq).
  { destruct t; [apply sim_raise | apply sim_ret; reflexivity]. }
  intros ? ? <-. repeat sim_step.
  apply sim_ret. eauto.
Qed.

Lemma sim_after_open e path h1 h2 :
  sim eq h1 h2 (after_open e path h1) (after_open e path h2).
Proof.
  unfold after_open.
  eapply sim_bind.
  { repeat sim_step. apply sim_opener_header. }
  intros x1 x2 (hdr & b & -> & ->).
  apply sim_try_finally; [|auto with sim].
  apply sim_try_except; [apply sim_extract | auto with sim].
Qed.

Lemma get_asar_info_unfold e path w :
  get_asar_info e path w =
  match dict_get (w_fs w) path with
  | Some data =>
      after_open e path (List.length (w_heap w))
        (World (w_fs w) (w_heap w ++ [File data 0 false]))
  | None =>
      (Raise (ProcessorError ("Can't read " ++ path ++ ": ") (Some OSError)),
       w)
  end.
Proof.
  unfold get_asar_info, _asar_opener, after_open.
  rewrite !bind_assoc.
  unfold bind at 1, try_except, open_rb, raise.
  destruct (dict_get (w_fs w) path); reflexivity.
Qed.

(** A run of [get_asar_info] adds at most one file object to the heap, and
    its outcome and that file object do not depend on the heap it started
    with. *)
Lemma get_asar_info_frame e path fs :
  exists r tl, forall hp,
    get_asar_info e path (World fs hp) = (r, World fs (hp ++ tl)).
Proof.
  destruct (dict_get fs path) as [data|] eqn:E.
  - destruct (sim_after_open e path O O fs [] [] (File data 0 false)
                eq_refl eq_refl) as (r & _ & f' & H & _ & _).
    exists r, [f']. intros hp.
    rewrite get_asar_info_unfold; simpl; rewrite E.
    destruct (sim_after_open e path (List.length hp) O fs hp []
                (File data 0 false) eq_refl eq_refl)
      as (r1 & r2 & f1 & H1 & H2 & Hr).
    rewrite H1. simpl in H, H2. rewrite H in H2.
    injection H2 as Er Ef. subst r2 f1.
    now rewrite (agree_eq _ _ Hr).
  - exists (Raise (ProcessorError ("Can't read " ++ path ++ ": ")
                     (Some OSError))), [].
    intros hp. rewrite get_asar_info_unfold; simpl; rewrite E.
    now rewrite app_nil_r.
Qed.

End RunLemmas.

(** ** File operations on an open file *)

Lemma ssize_in_range n :
  PY_SSIZE_T_MIN <= n <= PY_SSIZE_T_MAX ->
  (n <? PY_SSIZE_T_MIN) || (PY_SSIZE_T_MAX <? n) = false.
Proof.
  intros H. apply orb_false_iff; split; apply Z.ltb_ge; lia.
Qed.

Section FileLemmas.
Context {lib : PyLib}.

Lemma file_seek_ok offset data pos :
  0 <= offset <= max_offset ->
  file_seek offset (File data pos false)
  = (Ok offset, File data offset false).
Proof.
  intros H. pose proof max_offset_range as R.
  unfold file_seek; simpl.
  rewrite ssize_in_range by (unfold PY_SSIZE_T_MIN; lia).
  destruct (Z.ltb_spec offset 0); [lia|].
  destruct (Z.ltb_spec max_offset offset); [lia | reflexivity].
Qed.

Lemma file_tell_ok data pos :
  file_tell (File data pos false) = (Ok pos, File data pos false).
Proof. reflexivity. Qed.

Lemma file_read_ok n data pos :
  0 <= n <= max_bytes ->
  file_read (Some n) (File data pos false)
  = (Ok (slice data pos n),
     File data (pos + Z.of_nat (List.length (slice data pos n))) false).
Proof.
  intros H. pose proof max_bytes_range as R.
  unfold file_read, file_rest, slice; simpl.
  rewrite ssize_in_range by (unfold PY_SSIZE_T_MIN; lia).
  destruct (Z.ltb_spec n (-1)); [lia|].
  destruct (Z.eqb_spec n (-1)); [lia|].
  destruct (Z.ltb_spec max_bytes n); [lia | reflexivity].
Qed.

Lemma file_read_all data pos :
  Z.of_nat (List.length (skipn (Z.to_nat pos) data)) <= max_bytes ->
  file_read (Some (-1)) (File data pos false)
  = (Ok (skipn (Z.to_nat pos) data),
     File data (pos + Z.of_nat (List.length (skipn (Z.to_nat pos) data)))
       false).
Proof.
  intros H. unfold file_read, file_rest; simpl.
  destruct (Z.ltb_spec max_bytes
              (Z.of_nat (List.length (skipn (Z.to_nat pos) data))));
    [lia | reflexivity].
Qed.

Lemma file_read_negative n data pos :
  PY_SSIZE_T_MIN <= n < -1 ->
  file_read (Some n) (File data pos false)
  = (Raise ValueError, File data pos false).
Proof.
  intros H. unfold file_read; simpl.
  rewrite ssize_in_range by (unfold PY_SSIZE_T_MAX; lia).
  destruct (Z.ltb_spec n (-1)); [reflexivity | lia].
Qed.

(** A [read] leaves an open file open, on the same bytes, and raises no
    [ProcessorError]. *)
Lemma file_read_open size data pos :
  exists r pos',
    file_read size (File data pos false) = (r, File data pos' false) /\
    forall x, r = Raise x -> is_ProcessorError x = false.
Proof.
  unfold file_read; simpl.
  destruct size as [n|].
  - destruct ((n <? PY_SSIZE_T_MIN) || (PY_SSIZE_T_MAX <? n)).
    { eexists _, _; split; [reflexivity|]. now intros x [= <-]. }
    destruct (n <? -1).
    { eexists _, _; split; [reflexivity|]. now intros x [= <-]. }
    destruct (n =? -1).
    + destruct (max_bytes <? _); eexists _, _; split;
        try reflexivity; try discriminate. now intros x [= <-].
    + destruct (max_bytes <? _); eexists _, _; split;
        try reflexivity; try discriminate. now intros x [= <-].
  - destruct (max_bytes <? _); eexists _, _; split;
      try reflexivity; try discriminate. now intros x [= <-].
Qed.

End FileLemmas.

(** ** The size field *)

Lemma le_uint_bound b : 0 <= le_uint b < 256 ^ Z.of_nat (List.length b).
Proof.
  induction b as [|x b IH].
  - simpl. lia.
  - cbn [le_uint List.length]. rewrite Nat2Z.inj_succ, Z.pow_succ_r by lia.
    assert (0 <= Z.of_N (Byte.to_N x) < 256).
    { pose proof (Byte.to_N_bounded x). lia. }
    lia.
Qed.

Lemma slice_length data from len :
  0 <= from -> 0 <= len ->
  from + len <= Z.of_nat (List.length data) ->
  Z.of_nat (List.length (slice data from len)) = len.
Proof.
  intros Hf Hl H. unfold slice.
  rewrite length_firstn, length_skipn. lia.
Qed.

Lemma size_field_length data :
  (8 <= List.length data)%nat -> List.length (slice data 4 4) = 4%nat.
Proof.
  intros H. apply Nat2Z.inj. rewrite slice_length; lia.
Qed.

Lemma size_field_bound data :
  (8 <= List.length data)%nat -> 0 <= size_field data < 2 ^ 32.
Proof.
  intros H. unfold size_field.
  pose proof (le_uint_bound (slice data 4 4)) as B.
  rewrite size_field_length in B by assumption. exact B.
Qed.

Lemma struct_unpack_I_size_field data :
  (8 <= List.length data)%nat ->
  struct_unpack_I (slice data 4 4) = Ok [size_field data].
Proof.
  intros H. unfold struct_unpack_I.
  now rewrite size_field_length.
Qed.

Lemma struct_unpack_I_short data :
  (List.length data < 8)%nat ->
  struct_unpack_I (slice data 4 4) = Raise struct_error.
Proof.
  intros H. unfold struct_unpack_I.
  destruct (Nat.eqb_spec (List.length (slice data 4 4)) 4) as [E|]; auto.
  unfold slice in E. rewrite length_firstn, length_skipn in E. lia.
Qed.

(** ** Runs of [_asar_opener] *)

(** A fact about concrete data, by evaluation. *)
Ltac concrete :=
  first [ reflexivity
        | apply Nat.leb_le; vm_compute; reflexivity
        | vm_compute; repeat split; first [reflexivity | discriminate] ].

(** One step of a run: the next operation on the file object created last. *)
Ltac run_file_op :=
  unfold bind at 1; rewrite on_file_last; cbn [fst snd].

Ltac run_lift :=
  unfold bind at 1, lift at 1.

Section OpenerRuns.
Context {lib : PyLib}.

Lemma asar_opener_run path fs hp data :
  dict_get fs path = Some data ->
  (8 <= List.length data)%nat ->
  _asar_opener path (World fs hp) =
  match file_read (Some (size_field data - 8)) (File data 16 false) with
  | (Raise x, f) => (Raise x, World fs (hp ++ [f]))
  | (Ok raw, f) =>
      match bytes_decode raw with
      | Raise x => (Raise x, World fs (hp ++ [f]))
      | Ok header =>
          match json_loads header with
          | Raise x => (Raise x, World fs (hp ++ [f]))
          | Ok json_header =>
              (Ok (List.length hp, json_header, f_pos f),
               World fs (hp ++ [f]))
          end
      end
  end.
Proof.
  intros Hfs Hlen.
  pose proof max_offset_range as Ro. pose proof max_bytes_range as Rb.
  unfold _asar_opener, try_except, bind at 1.
  rewrite (open_rb_ok _ _ _ _ Hfs).
  run_file_op. rewrite file_seek_ok by lia.
  run_file_op. rewrite file_read_ok by lia.
  cbn [fst snd].
  run_lift. rewrite struct_unpack_I_size_field, size_field_length by assumption.
  change (4 + Z.of_nat 4) with 8.
  unfold asar_opener_header.
  change (Z.of_nat (List.length [size_field data]) <=? 0) with false.
  unfold bind at 1, ret at 1. unfold bind at 1, ret at 1.
  run_file_op. rewrite file_tell_ok. cbn [fst snd].
  run_file_op. rewrite file_seek_ok by lia.
  cbn [fst snd]. change (8 + 8) with 16.
  run_file_op.
  destruct (file_read_open (Some (size_field data - 8)) data 16)
    as (r & pos' & -> & _).
  cbn [fst snd].
  destruct r as [raw|x]; [|reflexivity].
  run_lift. destruct (bytes_decode raw) as [header|]; [|reflexivity].
  run_lift. destruct (json_loads header); [|reflexivity].
  run_file_op. rewrite file_tell_ok. reflexivity.
Qed.

Lemma asar_opener_short path fs hp data :
  dict_get fs path = Some data ->
  (List.length data < 8)%nat ->
  _asar_opener path (World fs hp) =
  (Raise struct_error,
   World fs
     (hp ++ [File data (4 + Z.of_nat (List.length (slice data 4 4))) false])).
Proof.
  intros Hfs Hlen.
  pose proof max_offset_range as Ro. pose proof max_bytes_range as Rb.
  unfold _asar_opener, try_except, bind at 1.
  rewrite (open_rb_ok _ _ _ _ Hfs).
  run_file_op. rewrite file_seek_ok by lia.
  run_file_op. rewrite file_read_ok by lia.
  cbn [fst snd].
  run_lift. now rewrite struct_unpack_I_short.
Qed.

Lemma asar_opener_missing path fs hp :
  dict_get fs path = None ->
  _asar_opener path (World fs hp) =
  (Raise (ProcessorError ("Can't read " ++ path ++ ": ") (Some OSError)),
   World fs hp).
Proof.
  intros Hfs.
  unfold _asar_opener, try_except, bind at 1, open_rb; simpl.
  now rewrite Hfs.
Qed.

End OpenerRuns.

(** ** Runs of [_extract_package_json] and [get_asar_info] *)

Section ExtractRuns.
Context {lib : PyLib}.

Lemma extract_not_found e h hdr base w x :
  lookup_entry e hdr = Raise x ->
  _extract_package_json e h hdr base w =
  (Raise (ProcessorError "Can't find package JSON: " (Some x)), w).
Proof.
  intros H. unfold _extract_package_json, bind at 1, try_except, lift.
  now rewrite H.
Qed.

(** The entry is a [dict] with an integer [size] and an [offset] that [int]
    accepts: the bytes of the entry are sought and parsed. *)
Lemma extract_run e fs hp data pos hdr base entry off K N :
  lookup_entry e hdr = Ok (VDict entry) ->
  dict_get entry "offset" = Some off ->
  py_int off = Ok K ->
  dict_get entry "size" = Some (VInt N) ->
  0 <= K + base <= max_offset ->
  0 <= N <= max_bytes ->
  _extract_package_json e (List.length hp) hdr base
    (World fs (hp ++ [File data pos false])) =
  (json_loads_bytes (slice data (K + base) N),
   World fs
     (hp ++ [File data
               (K + base + Z.of_nat (List.length (slice data (K + base) N)))
               false])).
Proof.
  intros Hl Ho Hi Hs HK HN.
  unfold _extract_package_json, bind at 1, try_except, lift at 1.
  rewrite Hl.
  run_lift. unfold py_get at 1. rewrite Ho.
  run_lift. rewrite Hi.
  run_file_op. rewrite file_seek_ok by assumption. cbn [fst snd].
  run_lift. unfold py_get. rewrite Hs.
  run_lift. cbn [read_size].
  run_file_op. rewrite file_read_ok by assumption. cbn [fst snd].
  reflexivity.
Qed.

Lemma get_asar_info_opener_fails e path w x w1 :
  _asar_opener path w = (Raise x, w1) ->
  get_asar_info e path w = (Raise x, w1).
Proof.
  intros H. unfold get_asar_info, bind. now rewrite H.
Qed.

Lemma get_asar_info_run e path w fs hp f hdr base r f' :
  _asar_opener path w
  = (Ok (List.length hp, hdr, base), World fs (hp ++ [f])) ->
  _extract_package_json e (List.length hp) hdr base (World fs (hp ++ [f]))
  = (r, World fs (hp ++ [f'])) ->
  get_asar_info e path w = (reported r, World fs (hp ++ [closed f'])).
Proof.
  intros Ho He. unfold get_asar_info, bind. rewrite Ho.
  unfold try_finally, try_except. rewrite He.
  destruct r as [v|x]; unfold raise; rewrite on_file_last; reflexivity.
Qed.

End ExtractRuns.

(** ** Extraction of a well-formed archive *)

(** C1.  Round trip.  Let the size field (bytes 4-7) of the archive hold
    [V = 8 + L], let the [L] bytes from offset 16 be the UTF-8 text of a JSON
    header whose ["files"] map gives, under the requested name, an entry
    with ["size"] [N] and ["offset"] the decimal string of [K], and let the
    [N] bytes from offset [16 + L + K] be a JSON text that denotes [v].
    Then [_asar_opener] returns the open file, the parsed header and the
    base offset [16 + (V - 8)], [_extract_package_json] returns [v] from
    them, and so does [get_asar_info], which closes the file.  The header
    read is [V - 8] bytes long: it ends where the cursor is when
    [_asar_opener] returns, at [16 + (V - 8)]. *)
Theorem asar_round_trip {lib : PyLib} (e : env) path fs hp data
    (L K N : Z) header json_header files entry k text v :
  dict_get fs path = Some data ->
  Z.of_nat (List.length data) <= max_offset ->
  Z.of_nat (List.length data) <= max_bytes ->
  size_field data = 8 + L ->
  0 <= L -> 0 <= K -> 0 <= N ->
  16 + L + K + N <= Z.of_nat (List.length data) ->
  decode_utf8 (slice data 16 L) = Some header ->
  json_decode header = Some json_header ->
  py_getitem json_header "files" = Ok (VDict files) ->
  dict_get files (package_json e) = Some (VDict entry) ->
  dict_get entry "size" = Some (VInt N) ->
  dict_get entry "offset" = Some (VStr k) ->
  int_of_str k = Some K ->
  decode_detected (slice data (16 + L + K) N) = Some text ->
  json_decode text = Some v ->
  let w0 := World fs hp in
  let w1 := World fs (hp ++ [File data (16 + L) false]) in
  let asar_file := List.length hp in
  let base_offset := 16 + (size_field data - 8) in
  _asar_opener path w0 = (Ok (asar_file, json_header, base_offset), w1) /\
  _extract_package_json e asar_file json_header base_offset w1
  = (Ok v, World fs (hp ++ [File data (16 + L + K + N) false])) /\
  get_asar_info e path w0
  = (Ok v, World fs (hp ++ [File data (16 + L + K + N) true])).
Proof.
  intros Hfs Hmaxo Hmaxb HV HL HK HN Hlen Hdec Hjson Hfiles Hentry Hsize Hoff
         Hint Htext Hv w0 w1 asar_file base_offset.
  assert (HhL : Z.of_nat (List.length (slice data 16 L)) = L)
    by (apply slice_length; lia).
  assert (Hbase : base_offset = 16 + L) by (unfold base_offset; lia).
  assert (Hopen : _asar_opener path w0
                  = (Ok (asar_file, json_header, base_offset), w1)).
  { unfold w0. rewrite (asar_opener_run path fs hp data Hfs) by lia.
    replace (size_field data - 8) with L by lia.
    rewrite file_read_ok by lia.
    unfold bytes_decode, json_loads.
    rewrite Hdec, Hjson, HhL, Hbase. reflexivity. }
  assert (Hext : _extract_package_json e asar_file json_header base_offset w1
                 = (Ok v, World fs
                            (hp ++ [File data (16 + L + K + N) false]))).
  { unfold w1, asar_file.
    rewrite (extract_run e fs hp data (16 + L) json_header base_offset
               entry (VStr k) K N).
    - replace (K + base_offset) with (16 + L + K) by lia.
      rewrite slice_length by lia.
      unfold json_loads_bytes, json_loads. now rewrite Htext, Hv.
    - unfold lookup_entry. rewrite Hfiles. simpl. now rewrite Hentry.
    - assumption.
    - simpl. now rewrite Hint.
    - assumption.
    - lia.
    - lia. }
  repeat split; try assumption.
  unfold w0, w1, asar_file in *.
  rewrite (get_asar_info_run e path _ fs hp _ _ _ _ _ Hopen Hext).
  reflexivity.
Qed.

(** An archive as the specification builds it: 3 bytes of other data, then
    the 17 bytes of the entry. *)
Lemma asar_round_trip_witness :
  get_asar_info (lib := Fragment.lib)
    (Fragment.env_for "app.asar" "package.json") "app.asar"
    (Fragment.disk "app.asar"
       (Fragment.pack
          (Fragment.js "{'files':{'package.json':{'size':17,'offset':'3'}}}")
          (Fragment.js "xyz{'version':'1.2'}")))
  = (Ok (VDict [("version", VStr "1.2")]),
     World
       [("app.asar",
         Fragment.pack
           (Fragment.js "{'files':{'package.json':{'size':17,'offset':'3'}}}")
           (Fragment.js "xyz{'version':'1.2'}"))]
       [File
          (Fragment.pack
             (Fragment.js
                "{'files':{'package.json':{'size':17,'offset':'3'}}}")
             (Fragment.js "xyz{'version':'1.2'}"))
          87 true]).
Proof.
  refine (proj2 (proj2
    (asar_round_trip (lib := Fragment.lib)
       (Fragment.env_for "app.asar" "package.json") "app.asar"
       _ [] _ 51 3 17
       (Fragment.js "{'files':{'package.json':{'size':17,'offset':'3'}}}")
       (VDict [("files",
                VDict [("package.json",
                        VDict [("size", VInt 17); ("offset", VStr "3")])])])
       [("package.json", VDict [("size", VInt 17); ("offset", VStr "3")])]
       [("size", VInt 17); ("offset", VStr "3")]
       "3" (Fragment.js "{'version':'1.2'}")
       (VDict [("version", VStr "1.2")])
       _ _ _ _ _ _ _ _ _ _ _ _ _ _ _ _ _)));
    concrete.
Defined.

(** ** The file object when [get_asar_info] returns *)

Lemma is_open_last fs hp f :
  is_open (World fs (hp ++ [f])) (List.length hp) = negb (f_closed f).
Proof.
  unfold is_open; simpl. now rewrite nth_error_last.
Qed.

(** The outcomes of [_asar_opener] on a file that [open] accepts: the tuple,
    or an exception of the library, with the file object left open either
    way. *)
Lemma asar_opener_outcome {lib : PyLib} path fs hp data :
  dict_get fs path = Some data ->
  exists r f,
    _asar_opener path (World fs hp) = (r, World fs (hp ++ [f])) /\
    f_closed f = false /\ f_data f = data /\
    match r with
    | Ok (h, _, _) => h = List.length hp
    | Raise x => is_ProcessorError x = false
    end.
Proof.
  intros Hfs.
  destruct (Nat.le_gt_cases 8 (List.length data)) as [Hlen|Hlen].
  - rewrite (asar_opener_run path fs hp data Hfs Hlen).
    destruct (file_read_open (Some (size_field data - 8)) data 16)
      as (r & pos' & -> & Hx).
    destruct r as [raw|x].
    + unfold bytes_decode, json_loads.
      destruct (decode_utf8 raw) as [s|].
      * destruct (json_decode s); eexists _, _; repeat split.
      * eexists _, _; repeat split.
    + eexists _, _; repeat split. now apply Hx.
  - rewrite (asar_opener_short path fs hp data Hfs Hlen).
    eexists _, _; repeat split.
Qed.

(** Once [_asar_opener] has returned, [get_asar_info] closes the file
    whatever the extraction does. *)
Lemma get_asar_info_closes_after_header {lib : PyLib} e path fs hp
    asar_file json_header base_offset w1 :
  _asar_opener path (World fs hp)
  = (Ok (asar_file, json_header, base_offset), w1) ->
  is_open w1 asar_file = true /\
  is_open (snd (get_asar_info e path (World fs hp))) asar_file = false.
Proof.
  intros Ho.
  destruct (dict_get fs path) as [data|] eqn:Hfs.
  - destruct (asar_opener_outcome path fs hp data Hfs)
      as (r & f & Hr & Hf & _ & Hh).
    rewrite Ho in Hr. injection Hr as <- ->. subst asar_file.
    rewrite is_open_last, Hf. split; [reflexivity|].
    destruct (sim_extract e json_header base_offset
                (List.length hp) (List.length hp) fs hp hp f
                eq_refl eq_refl) as (r1 & _ & f' & He & _ & _).
    rewrite (get_asar_info_run e path _ fs hp f _ _ r1 f' Ho He).
    simpl. now rewrite is_open_last.
  - rewrite (asar_opener_missing path fs hp Hfs) in Ho. discriminate.
Qed.

(** C2.  The file is not closed on every path: when the header cannot be
    parsed (the file is shorter than the size field, the header size is
    refused by [read], the header is not UTF-8 or not JSON), the exception
    leaves [_asar_opener] and [get_asar_info] with the file object still
    open. *)
Theorem header_failure_leaves_file_open {lib : PyLib} e path fs hp data x w1 :
  dict_get fs path = Some data ->
  _asar_opener path (World fs hp) = (Raise x, w1) ->
  get_asar_info e path (World fs hp) = (Raise x, w1) /\
  is_open w1 (List.length hp) = true /\
  all_closed w1 = false.
Proof.
  intros Hfs Ho.
  split; [now apply get_asar_info_opener_fails|].
  destruct (asar_opener_outcome path fs hp data Hfs)
    as (r & f & Hr & Hf & _ & _).
  rewrite Ho in Hr. injection Hr as <- ->.
  rewrite is_open_last, Hf. split; [reflexivity|].
  unfold all_closed; simpl. rewrite forallb_app; simpl.
  rewrite Hf. now rewrite andb_false_r.
Qed.

(** A file of 5 bytes. *)
Lemma header_failure_leaves_file_open_witness :
  get_asar_info (lib := Fragment.lib)
    (Fragment.env_for "app.asar" "package.json") "app.asar"
    (Fragment.disk "app.asar" (Fragment.zeros 5))
  = (Raise struct_error,
     World [("app.asar", Fragment.zeros 5)]
       [File (Fragment.zeros 5) 5 false]) /\
  is_open
    (World [("app.asar", Fragment.zeros 5)]
       [File (Fragment.zeros 5) 5 false]) O = true /\
  all_closed
    (World [("app.asar", Fragment.zeros 5)]
       [File (Fragment.zeros 5) 5 false]) = false.
Proof.
  apply (header_failure_leaves_file_open (lib := Fragment.lib)
           (Fragment.env_for "app.asar" "package.json") "app.asar"
           [("app.asar", Fragment.zeros 5)] [] (Fragment.zeros 5));
    reflexivity.
Defined.

(** ** Archives with a size field below 8 *)

(** C3, as the code has it.  A size field [V < 8] is not checked.  For
    [V < 7] the length [V - 8] is passed to [read], which refuses it with a
    [ValueError]; this exception, not a [ProcessorError], leaves
    [_asar_opener].  For [V = 7] the length is [-1], for which [read]
    returns the rest of the file (which the machine has the memory for):
    the bytes from offset 16 to the end are taken as the header, and
    [_asar_opener] returns when they are JSON. *)
Theorem undersized_header_behaviour {lib : PyLib} path fs hp data :
  dict_get fs path = Some data ->
  (8 <= List.length data)%nat ->
  Z.of_nat (List.length data) <= max_bytes ->
  size_field data < 8 ->
  (size_field data < 7 ->
   _asar_opener path (World fs hp)
   = (Raise ValueError, World fs (hp ++ [File data 16 false]))) /\
  (size_field data = 7 ->
   fst (_asar_opener path (World fs hp))
   = match bytes_decode (skipn 16 data) with
     | Raise x => Raise x
     | Ok header =>
         match json_loads header with
         | Raise x => Raise x
         | Ok json_header =>
             Ok (List.length hp, json_header,
                 16 + Z.of_nat (List.length (skipn 16 data)))
         end
     end).
Proof.
  intros Hfs Hlen Hmax HV.
  pose proof (size_field_bound data Hlen) as HB.
  rewrite (asar_opener_run path fs hp data Hfs Hlen).
  split.
  - intros H7.
    rewrite file_read_negative by (unfold PY_SSIZE_T_MIN; lia).
    reflexivity.
  - intros H7. rewrite H7. change (7 - 8) with (-1).
    rewrite file_read_all
      by (change (Z.to_nat 16) with 16%nat; rewrite length_skipn; lia).
    change (Z.to_nat 16) with 16%nat.
    destruct (bytes_decode (skipn 16 data)) as [s|]; [|reflexivity].
    destruct (json_loads s); reflexivity.
Qed.

(** An archive with size field 7 whose bytes from offset 16 on are a
    header. *)
Lemma undersized_header_behaviour_witness :
  fst (_asar_opener (lib := Fragment.lib) "app.asar"
         (Fragment.disk "app.asar"
            (Fragment.archive 7 (Fragment.js "{'files':{}}") "")))
  = Ok (O, VDict [("files", VDict [])], 28).
Proof.
  refine (proj2
    (undersized_header_behaviour (lib := Fragment.lib) "app.asar"
       [("app.asar", Fragment.archive 7 (Fragment.js "{'files':{}}") "")]
       [] (Fragment.archive 7 (Fragment.js "{'files':{}}") "")
       eq_refl _ _ _) _); concrete.
Defined.

(** C3, as the specification has it, fails: this archive has 7 in its size
    field, and [_asar_opener] returns its header. *)
Lemma undersized_header_accepted :
  let data := Fragment.archive 7 (Fragment.js "{'files':{}}") "" in
  size_field data = 7 /\
  7 < 8 /\
  _asar_opener (lib := Fragment.lib) "app.asar" (Fragment.disk "app.asar" data)
  = (Ok (O, VDict [("files", VDict [])], 28),
     World [("app.asar", data)] [File data 28 false]).
Proof.
  vm_compute. repeat split.
Qed.

(** ** Archives that end inside an entry *)

Lemma slice_short data from len :
  0 <= from ->
  Z.of_nat (List.length data) - from <= len ->
  slice data from len = skipn (Z.to_nat from) data.
Proof.
  intros Hf H. unfold slice. apply firstn_all2.
  rewrite length_skipn. lia.
Qed.

(** C4, as the code has it.  When the file holds fewer bytes behind the
    start of the entry than its [size] says, [read] returns the bytes that
    are there, and they are parsed: the extraction returns their value when
    they are a JSON text, and fails when they are not, with the decoder's
    exception, which [get_asar_info] reports as a [ProcessorError]. *)
Theorem truncated_entry_behaviour {lib : PyLib} e path fs hp data
    asar_file json_header base_offset w1 entry off K S :
  dict_get fs path = Some data ->
  _asar_opener path (World fs hp)
  = (Ok (asar_file, json_header, base_offset), w1) ->
  lookup_entry e json_header = Ok (VDict entry) ->
  dict_get entry "offset" = Some off ->
  py_int off = Ok K ->
  dict_get entry "size" = Some (VInt S) ->
  Z.of_nat (List.length data) <= max_offset ->
  0 <= K + base_offset <= Z.of_nat (List.length data) ->
  Z.of_nat (List.length data) - (K + base_offset) < S <= max_bytes ->
  let available := skipn (Z.to_nat (K + base_offset)) data in
  fst (_extract_package_json e asar_file json_header base_offset w1)
  = json_loads_bytes available /\
  fst (get_asar_info e path (World fs hp))
  = reported (json_loads_bytes available).
Proof.
  intros Hfs Ho Hl Hoff Hint Hsize Hmax HK HS available.
  destruct (asar_opener_outcome path fs hp data Hfs)
    as (r & f & Hr & Hf & Hd & Hh).
  rewrite Ho in Hr. injection Hr as <- ->. subst asar_file.
  destruct f as [d p c]; simpl in Hf, Hd; subst c d.
  assert (He : _extract_package_json e (List.length hp) json_header
                 base_offset (World fs (hp ++ [File data p false]))
               = (json_loads_bytes available,
                  World fs
                    (hp ++ [File data
                              (K + base_offset
                               + Z.of_nat (List.length available)) false]))).
  { rewrite (extract_run e fs hp data p json_header base_offset
               entry off K S Hl Hoff Hint Hsize) by lia.
    rewrite slice_short by lia. reflexivity. }
  split.
  - now rewrite He.
  - now rewrite (get_asar_info_run e path _ fs hp _ _ _ _ _ Ho He).
Qed.

(** The entry is said to have 2 bytes, and the file ends after its first
    byte. *)
Lemma truncated_entry_behaviour_witness :
  fst (get_asar_info (lib := Fragment.lib)
         (Fragment.env_for "app.asar" "a") "app.asar"
         (Fragment.disk "app.asar"
            (Fragment.pack
               (Fragment.js "{'files':{'a':{'size':2,'offset':'0'}}}") "1")))
  = Ok (VInt 1).
Proof.
  refine (proj2
    (truncated_entry_behaviour (lib := Fragment.lib)
       (Fragment.env_for "app.asar" "a") "app.asar"
       [("app.asar",
         Fragment.pack
           (Fragment.js "{'files':{'a':{'size':2,'offset':'0'}}}") "1")]
       []
       (Fragment.pack
          (Fragment.js "{'files':{'a':{'size':2,'offset':'0'}}}") "1")
       O
       (VDict [("files",
                VDict [("a", VDict [("size", VInt 2); ("offset", VStr "0")])])])
       55
       (World
          [("app.asar",
            Fragment.pack
              (Fragment.js "{'files':{'a':{'size':2,'offset':'0'}}}") "1")]
          [File
             (Fragment.pack
                (Fragment.js "{'files':{'a':{'size':2,'offset':'0'}}}") "1")
             55 false])
       [("size", VInt 2); ("offset", VStr "0")] (VStr "0") 0 2
       _ _ _ _ _ _ _ _ _));
    concrete.
Defined.

(** C4, as the specification has it, fails: the entry of this archive is
    said to have 2 bytes, only 1 byte is there, and the extraction returns
    the value of that byte. *)
Lemma truncated_entry_accepted :
  let header := Fragment.js "{'files':{'a':{'size':2,'offset':'0'}}}" in
  let data := Fragment.pack header "1" in
  let w := Fragment.disk "app.asar" data in
  let e := Fragment.env_for "app.asar" "a" in
  _asar_opener (lib := Fragment.lib) "app.asar" w
  = (Ok (O, VDict [("files",
                    VDict [("a", VDict [("size", VInt 2);
                                        ("offset", VStr "0")])])], 55),
     World [("app.asar", data)] [File data 55 false]) /\
  Z.of_nat (List.length data) - 55 = 1 /\
  1 < 2 /\
  get_asar_info (lib := Fragment.lib) e "app.asar" w
  = (Ok (VInt 1), World [("app.asar", data)] [File data 56 true]).
Proof.
  vm_compute. repeat split.
Qed.

(** ** Looking up the entry *)

Lemma dict_get_set {V} (d : list (string * V)) k v k' :
  dict_get (dict_set d k v) k'
  = if String.eqb k k' then Some v else dict_get d k'.
Proof.
  induction d as [|[k0 v0] d IH]; simpl.
  - reflexivity.
  - destruct (String.eqb_spec k0 k) as [->|Hk]; simpl.
    + destruct (String.eqb k k'); reflexivity.
    + rewrite IH. destruct (String.eqb_spec k0 k') as [->|Hk'].
      * destruct (String.eqb_spec k k'); [congruence | reflexivity].
      * reflexivity.
Qed.

Lemma append_not_self (s t : string) : t <> EmptyString -> s <> (s ++ t)%string.
Proof.
  intros Ht. induction s as [|c s IH]; simpl.
  - congruence.
  - intros E. injection E as E. contradiction.
Qed.

(** C5.  A name that is no key of the ["files"] map of the header: the
    extraction fails with a [ProcessorError] that holds the [KeyError] of the
    lookup, and [get_asar_info] reports that as a [ProcessorError] again;
    the [KeyError] itself does not reach the caller. *)
Theorem unknown_entry_is_processor_error {lib : PyLib} e asar_file json_header
    base_offset w files :
  py_getitem json_header "files" = Ok (VDict files) ->
  dict_get files (package_json e) = None ->
  _extract_package_json e asar_file json_header base_offset w
  = (Raise (ProcessorError "Can't find package JSON: "
              (Some (KeyError (package_json e)))), w) /\
  forall path fs hp w1,
    _asar_opener path (World fs hp)
    = (Ok (asar_file, json_header, base_offset), w1) ->
    fst (get_asar_info e path (World fs hp))
    = Raise (ProcessorError "Can't extract package info: "
               (Some (ProcessorError "Can't find package JSON: "
                        (Some (KeyError (package_json e)))))).
Proof.
  intros Hfiles Hname.
  assert (Hl : lookup_entry e json_header = Raise (KeyError (package_json e))).
  { unfold lookup_entry. rewrite Hfiles. simpl. now rewrite Hname. }
  split.
  - now apply extract_not_found.
  - intros path fs hp w1 Ho.
    unfold get_asar_info, bind. rewrite Ho.
    unfold try_finally, try_except.
    rewrite (extract_not_found e asar_file json_header base_offset w1 _ Hl).
    unfold raise.
    destruct (on_file asar_file file_close w1) as [[u|x] w2] eqn:Hc;
      [reflexivity|].
    (* closing does not fail *)
    unfold on_file, file_close in Hc.
    destruct (nth_error (w_heap w1) asar_file) as [f|] eqn:Hn;
      [discriminate|].
    destruct (dict_get fs path) as [data|] eqn:Hfs.
    + destruct (asar_opener_outcome path fs hp data Hfs)
        as (r & f & Hr & _ & _ & Hh).
      rewrite Ho in Hr. injection Hr as <- ->. subst asar_file.
      simpl in Hn. now rewrite nth_error_last in Hn.
    + rewrite (asar_opener_missing path fs hp Hfs) in Ho. discriminate.
Qed.

(** The entry "b" of an archive that has the entry "a". *)
Lemma unknown_entry_is_processor_error_witness :
  _extract_package_json (lib := Fragment.lib)
    (Fragment.env_for "app.asar" "b") O
    (VDict [("files",
             VDict [("a", VDict [("size", VInt 2); ("offset", VStr "0")])])])
    55 (World [] [File [] 0 false])
  = (Raise (ProcessorError "Can't find package JSON: " (Some (KeyError "b"))),
     World [] [File [] 0 false]).
Proof.
  refine (proj1
    (unknown_entry_is_processor_error (lib := Fragment.lib)
       (Fragment.env_for "app.asar" "b") O
       (VDict [("files",
                VDict [("a", VDict [("size", VInt 2); ("offset", VStr "0")])])])
       55 (World [] [File [] 0 false])
       [("a", VDict [("size", VInt 2); ("offset", VStr "0")])] _ _));
    reflexivity.
Defined.

(** C6.  The lookup is flat.  Let the top-level ["files"] map hold a
    directory [dir] whose own ["files"] map holds [leaf].  Asked for [leaf],
    or for the path [dir/leaf], the extraction fails unless that very name is
    a key of the top-level map: the nested map is not searched and the name is
    not split.  A key of the top-level map is found as it is, whatever it
    contains. *)
Theorem entry_lookup_is_flat {lib : PyLib} e asar_file base_offset w
    top dir sub leaf entry :
  let nested := VDict [("files", VDict (dict_set sub leaf entry))] in
  let files := dict_set top dir nested in
  let json_header := VDict [("files", VDict files)] in
  package_json e = leaf \/ package_json e = (dir ++ "/" ++ leaf)%string ->
  dir <> leaf ->
  dict_get top (package_json e) = None ->
  lookup_entry e json_header = Raise (KeyError (package_json e)) /\
  _extract_package_json e asar_file json_header base_offset w
  = (Raise (ProcessorError "Can't find package JSON: "
              (Some (KeyError (package_json e)))), w) /\
  forall direct,
    lookup_entry e
      (VDict [("files", VDict (dict_set files (package_json e) direct))])
    = Ok direct.
Proof.
  intros nested files json_header Hname Hdir Htop.
  assert (Hne : dir <> package_json e).
  { destruct Hname as [-> | ->]; [assumption|].
    apply append_not_self. discriminate. }
  assert (Hl : lookup_entry e json_header = Raise (KeyError (package_json e))).
  { unfold lookup_entry, json_header, files; simpl.
    rewrite dict_get_set, Htop.
    destruct (String.eqb_spec dir (package_json e)); [contradiction|].
    reflexivity. }
  split; [exact Hl|]. split.
  - now apply extract_not_found.
  - intros direct. unfold lookup_entry; simpl.
    now rewrite dict_get_set, String.eqb_refl.
Qed.

(** The header [{"files": {"lib": {"files": {"package.json": ...}}}}], asked
    for "lib/package.json". *)
Lemma entry_lookup_is_flat_witness :
  lookup_entry (Fragment.env_for "app.asar" "lib/package.json")
    (VDict
       [("files",
         VDict
           [("lib",
             VDict
               [("files",
                 VDict
                   [("package.json",
                     VDict [("size", VInt 2); ("offset", VStr "0")])])])])])
  = Raise (KeyError "lib/package.json").
Proof.
  refine (proj1
    (entry_lookup_is_flat (lib := Fragment.lib)
       (Fragment.env_for "app.asar" "lib/package.json") O 0 (World [] [])
       [] "lib" [] "package.json"
       (VDict [("size", VInt 2); ("offset", VStr "0")]) _ _ _)).
  - right. reflexivity.
  - discriminate.
  - reflexivity.
Defined.

(** ** The version *)

(** Whatever fails in [main] reaches the caller as a [ProcessorError]. *)
Lemma main_raises_ProcessorError {lib : PyLib} rad e w x w' :
  main rad e w = (Raise x, w') -> is_ProcessorError x = true.
Proof.
  unfold main, try_except.
  match goal with
  | |- context [match ?c w with _ => _ end] =>
      destruct (c w) as [[env'|ex] w1]
  end.
  - discriminate.
  - destruct (is_ProcessorError ex) eqn:E; unfold raise; intros H;
      injection H as <- <-; [exact E | reflexivity].
Qed.



(** ** Files that end inside the size field *)

(** C8.  A file of fewer than 8 bytes: [read(4)] at offset 4 returns fewer
    than 4 bytes, [struct.unpack] raises [struct.error], and that exception,
    which is not a [ProcessorError], leaves [_asar_opener] and
    [get_asar_info]; the guard that would raise "Can't determine header
    size" is never reached. *)
Theorem short_archive_raises_struct_error {lib : PyLib} e path fs hp data :
  dict_get fs path = Some data ->
  (List.length data < 8)%nat ->
  fst (_asar_opener path (World fs hp)) = Raise struct_error /\
  fst (get_asar_info e path (World fs hp)) = Raise struct_error /\
  is_ProcessorError struct_error = false.
Proof.
  intros Hfs Hlen.
  pose proof (asar_opener_short path fs hp data Hfs Hlen) as Ho.
  rewrite (get_asar_info_opener_fails e path _ _ _ Ho), Ho.
  repeat split.
Qed.

Lemma short_archive_raises_struct_error_witness :
  fst (_asar_opener (lib := Fragment.lib) "app.asar"
         (Fragment.disk "app.asar" (Fragment.zeros 5)))
  = Raise struct_error.
Proof.
  refine (proj1
    (short_archive_raises_struct_error (lib := Fragment.lib)
       (Fragment.env_for "app.asar" "package.json") "app.asar"
       [("app.asar", Fragment.zeros 5)] [] (Fragment.zeros 5) _ _)).
  - reflexivity.
  - vm_compute. repeat constructor.
Defined.

(** ** Running twice *)

(** The outcome of [get_asar_info] depends on the files, not on the file
    objects of earlier runs. *)
Lemma get_asar_info_heap_independent {lib : PyLib} e path fs hp1 hp2 :
  fst (get_asar_info e path (World fs hp1))
  = fst (get_asar_info e path (World fs hp2)).
Proof.
  destruct (get_asar_info_frame e path fs) as (r & tl & H).
  now rewrite !H.
Qed.

(** C9.  Two runs of [get_asar_info], one after the other, on the same
    files: the second run returns what the first returned (the same value or
    the same exception), and so the same version is derived; the runs leave
    the files as they were. *)
Theorem get_asar_info_idempotent {lib : PyLib} e path w :
  let first_run := get_asar_info e path w in
  let second_run := get_asar_info e path (snd first_run) in
  fst second_run = fst first_run /\
  derived_version e (fst second_run) = derived_version e (fst first_run) /\
  w_fs (snd first_run) = w_fs w /\
  w_fs (snd second_run) = w_fs w.
Proof.
  intros first_run second_run.
  destruct w as [fs hp].
  destruct (get_asar_info_frame e path fs) as (r & tl & H).
  unfold second_run, first_run. rewrite !H. simpl. rewrite !H. simpl.
  repeat split.
Qed.

(** ** The guard on the header size *)

(** A [read] raises no [NameError]. *)
Lemma file_read_no_NameError {lib : PyLib} size f x f' :
  file_read size f = (Raise x, f') -> is_NameError x = false.
Proof.
  unfold file_read.
  destruct size as [n|].
  - destruct ((n <? PY_SSIZE_T_MIN) || (PY_SSIZE_T_MAX <? n)).
    { now intros [= <- _]. }
    destruct (n <? -1). { now intros [= <- _]. }
    destruct (n =? -1); destruct (f_closed f); try (now intros [= <- _]);
      destruct (max_bytes <? _); (discriminate || now intros [= <- _]).
  - destruct (f_closed f); try (now intros [= <- _]).
    destruct (max_bytes <? _); (discriminate || now intros [= <- _]).
Qed.

(** On a file of 8 bytes or more, [_asar_opener] comes to the guard of
    line 111 with the tuple of the size field, the cursor behind the field,
    and no value for [error]. *)
Lemma asar_opener_reaches_guard {lib : PyLib} path fs hp data :
  dict_get fs path = Some data ->
  (8 <= List.length data)%nat ->
  _asar_opener path (World fs hp)
  = asar_opener_header path (List.length hp) None [size_field data]
      (World fs (hp ++ [File data 8 false])).
Proof.
  intros Hfs Hlen.
  pose proof max_offset_range as Ro. pose proof max_bytes_range as Rb.
  unfold _asar_opener, try_except, bind at 1.
  rewrite (open_rb_ok _ _ _ _ Hfs).
  run_file_op. rewrite file_seek_ok by lia.
  run_file_op. rewrite file_read_ok by lia.
  cbn [fst snd].
  run_lift. rewrite struct_unpack_I_size_field, size_field_length by assumption.
  reflexivity.
Qed.

(** The exceptions of [_asar_opener]: that of the [open], or one of the
    library; none is a [NameError]. *)
Lemma asar_opener_failure {lib : PyLib} path w x w' :
  _asar_opener path w = (Raise x, w') ->
  x = ProcessorError ("Can't read " ++ path ++ ": ") (Some OSError) \/
  (is_ProcessorError x = false /\ is_NameError x = false).
Proof.
  destruct w as [fs hp]. intros Hrun.
  destruct (dict_get fs path) as [data|] eqn:Hfs.
  2:{ rewrite (asar_opener_missing path fs hp Hfs) in Hrun.
      injection Hrun as <- _. now left. }
  right.
  destruct (Nat.le_gt_cases 8 (List.length data)) as [Hlen|Hlen].
  2:{ rewrite (asar_opener_short path fs hp data Hfs Hlen) in Hrun.
      injection Hrun as <- _. now split. }
  rewrite (asar_opener_run path fs hp data Hfs Hlen) in Hrun.
  destruct (file_read (Some (size_field data - 8)) (File data 16 false))
    as [[raw|y] f] eqn:Hread.
  - unfold bytes_decode, json_loads in Hrun.
    destruct (decode_utf8 raw) as [header|].
    + destruct (json_decode header); [discriminate|].
      injection Hrun as <- _. now split.
    + injection Hrun as <- _. now split.
  - injection Hrun as <- _. split.
    + destruct (file_read_open (Some (size_field data - 8)) data 16)
        as (r & pos' & Hr & Hx).
      rewrite Hread in Hr. injection Hr as <- _. now apply Hx.
    + exact (file_read_no_NameError _ _ _ _ Hread).
Qed.

(** C10.  The tuple that [struct.unpack] returns has one element, so the
    guard [len(header_size) <= 0] is false whenever control reaches it.  Of
    [_asar_opener]: a run stops before the guard (the [open] fails, or
    [struct.unpack] does), or it comes to the guard with a tuple of one
    number and no value for [error]; so no run raises a [NameError], and
    none raises the [ProcessorError] of the guard.  Were the guard true, its
    branch would read the local variable [error], which has no value there,
    and raise [UnboundLocalError] (a [NameError]) in place of the
    [ProcessorError]. *)
Theorem header_size_guard_unreachable {lib : PyLib} :
  (forall raw header_size,
     struct_unpack_I raw = Ok header_size ->
     List.length header_size = 1%nat /\
     (Z.of_nat (List.length header_size) <=? 0) = false) /\
  (forall path w,
     (exists x w',
        _asar_opener path w = (Raise x, w') /\
        (x = struct_error \/
         x = ProcessorError ("Can't read " ++ path ++ ": ") (Some OSError)))
     \/
     (exists asar_file n w1,
        _asar_opener path w
        = asar_opener_header path asar_file None [n] w1 /\
        (Z.of_nat (List.length [n]) <=? 0) = false)) /\
  (forall path w x w',
     _asar_opener path w = (Raise x, w') ->
     is_NameError x = false /\
     forall cause,
       x <> ProcessorError ("Can't determine header size of " ++ path ++ ": ")
              cause) /\
  (forall path asar_file header_size w,
     (Z.of_nat (List.length header_size) <=? 0) = true ->
     asar_opener_header path asar_file None header_size w
     = (Raise (UnboundLocalError "error"), w) /\
     is_NameError (UnboundLocalError "error") = true /\
     is_ProcessorError (UnboundLocalError "error") = false).
Proof.
  split; [|split; [|split]].
  - intros raw t H. unfold struct_unpack_I in H.
    destruct (Nat.eqb (List.length raw) 4); [|discriminate].
    injection H as <-. split; reflexivity.
  - intros path [fs hp].
    destruct (dict_get fs path) as [data|] eqn:Hfs.
    2:{ left. eexists _, _. split; [exact (asar_opener_missing _ _ _ Hfs)|].
        now right. }
    destruct (Nat.le_gt_cases 8 (List.length data)) as [Hlen|Hlen].
    + right. eexists _, _, _.
      split; [exact (asar_opener_reaches_guard _ _ _ _ Hfs Hlen) | reflexivity].
    + left. eexists _, _.
      split; [exact (asar_opener_short _ _ _ _ Hfs Hlen) | now left].
  - intros path w x w' Hrun.
    destruct (asar_opener_failure path w x w' Hrun) as [-> | [Hp Hn]].
    + split; [reflexivity|]. intros cause. simpl. discriminate.
    + split; [exact Hn|]. intros cause ->. discriminate.
  - intros path asar_file t w H.
    unfold asar_opener_header. rewrite H.
    repeat split.
Qed.

Lemma header_size_guard_unreachable_witness :
  (Z.of_nat (List.length [7]) <=? 0) = false /\
  is_NameError struct_error = false /\
  asar_opener_header (lib := Fragment.lib) "app.asar" O None []
    (World [] [File [] 8 false])
  = (Raise (UnboundLocalError "error"), World [] [File [] 8 false]).
Proof.
  pose proof (header_size_guard_unreachable (lib := Fragment.lib))
    as (Htuple & _ & Hruns & Hbranch).
  split; [|split].
  - exact (proj2 (Htuple (Fragment.le32 7) [7] eq_refl)).
  - exact (proj1 (Hruns "app.asar"
                    (World [("app.asar", Fragment.zeros 5)] [])
                    struct_error _ eq_refl)).
  - exact (proj1 (Hbranch "app.asar" O [] (World [] [File [] 8 false])
                    eq_refl)).
Defined.

(** * Further properties of [AsarVersioner] *)

(** ** What the file operations keep *)

Lemma file_seek_open {lib : PyLib} offset data pos :
  exists r pos',
    file_seek offset (File data pos false) = (r, File data pos' false) /\
    (forall x, r = Raise x -> is_ProcessorError x = false) /\
    forall pos2, fst (file_seek offset (File data pos2 false)) = r /\
                 (is_Ok r = true ->
                  snd (file_seek offset (File data pos2 false))
                  = File data pos' false).
Proof.
  unfold file_seek; simpl.
  destruct ((offset <? PY_SSIZE_T_MIN) || (PY_SSIZE_T_MAX <? offset)).
  { eexists _, _; repeat split; try discriminate. now intros x [= <-]. }
  destruct ((offset <? 0) || (max_offset <? offset)).
  { eexists _, _; repeat split; try discriminate. now intros x [= <-]. }
  eexists _, _; repeat split. discriminate.
Qed.

(** The extraction leaves the open file open, on the same bytes, and its
    outcome does not depend on where the cursor was. *)
Lemma extract_outcome {lib : PyLib} e fs hp data hdr base :
  exists r,
    forall pos, exists pos',
      _extract_package_json e (List.length hp) hdr base
        (World fs (hp ++ [File data pos false]))
      = (r, World fs (hp ++ [File data pos' false])).
Proof.
  unfold _extract_package_json.
  unfold bind at 1, try_except, lift at 1.
  destruct (lookup_entry e hdr) as [entry|x].
  2:{ eexists; intros pos; eexists; reflexivity. }
  unfold bind at 1, lift at 1.
  destruct (py_get entry "offset") as [off|x].
  2:{ eexists; intros pos; eexists; reflexivity. }
  unfold bind at 1, lift at 1.
  destruct (py_int off) as [K|x].
  2:{ eexists; intros pos; eexists; reflexivity. }
  destruct (file_seek_open (K + base) data 0) as (rs & ps & _ & _ & Hs).
  destruct rs as [o|x].
  2:{ exists (Raise x). intros pos.
      destruct (file_seek_open (K + base) data pos) as (r1 & p1 & H1 & _ & _).
      destruct (Hs pos) as [Hr _]. rewrite H1 in Hr. simpl in Hr. subst r1.
      exists p1. unfold bind at 1. rewrite on_file_last, H1. reflexivity. }
  assert (Hseek : forall pos,
             file_seek (K + base) (File data pos false)
             = (Ok o, File data ps false)).
  { intros pos. destruct (Hs pos) as [Hr Hf].
    specialize (Hf eq_refl).
    destruct (file_seek (K + base) (File data pos false)); simpl in *.
    now subst. }
  destruct (py_get entry "size") as [size|x] eqn:Hsize.
  2:{ exists (Raise x). intros pos. exists ps.
      unfold bind at 1. rewrite on_file_last, Hseek. cbn [fst snd].
      unfold bind at 1, lift at 1. reflexivity. }
  destruct (read_size size) as [n|x] eqn:Hn.
  2:{ exists (Raise x). intros pos. exists ps.
      unfold bind at 1. rewrite on_file_last, Hseek. cbn [fst snd].
      unfold bind at 1, lift at 1.
      unfold bind at 1, lift at 1. now rewrite Hn. }
  destruct (file_read_open n data ps) as (rr & pr & Hr & _).
  exists (match rr with Ok raw => json_loads_bytes raw | Raise x => Raise x end).
  intros pos. exists pr.
  unfold bind at 1. rewrite on_file_last, Hseek. cbn [fst snd].
  unfold bind at 1, lift at 1.
  unfold bind at 1, lift at 1. rewrite Hn.
  unfold bind at 1. rewrite on_file_last, Hr. cbn [fst snd].
  destruct rr; reflexivity.
Qed.

(** When [_asar_opener] returns, the file object is the newest one, open,
    on the bytes of the file. *)
Lemma opener_success_shape {lib : PyLib} path fs hp h hdr base w1 :
  _asar_opener path (World fs hp) = (Ok (h, hdr, base), w1) ->
  exists data pos,
    dict_get fs path = Some data /\ h = List.length hp /\
    w1 = World fs (hp ++ [File data pos false]).
Proof.
  intros Ho.
  destruct (dict_get fs path) as [data|] eqn:Hfs.
  - destruct (asar_opener_outcome path fs hp data Hfs)
      as (r & f & Hr & Hf & Hd & Hh).
    rewrite Ho in Hr. injection Hr as <- ->.
    destruct f as [d p c]; simpl in *; subst.
    exists data, p. repeat split.
  - rewrite (asar_opener_missing path fs hp Hfs) in Ho. discriminate.
Qed.

(** [get_asar_info] returns what the extraction returns, with a failure
    reported as a [ProcessorError]. *)
Lemma get_asar_info_reports {lib : PyLib} e path fs hp
    asar_file json_header base_offset w1 :
  _asar_opener path (World fs hp)
  = (Ok (asar_file, json_header, base_offset), w1) ->
  fst (get_asar_info e path (World fs hp))
  = reported
      (fst (_extract_package_json e asar_file json_header base_offset w1)).
Proof.
  intros Ho.
  destruct (opener_success_shape _ _ _ _ _ _ _ Ho)
    as (data & pos & Hfs & -> & ->).
  destruct (extract_outcome e fs hp data json_header base_offset) as (r & Hr).
  destruct (Hr pos) as (pos' & He).
  now rewrite (get_asar_info_run e path _ fs hp _ _ _ r _ Ho He), He.
Qed.

(** ** After the header: the file is closed and failures are reported *)

(** X1.  When [_asar_opener] has returned, [get_asar_info] ends with the
    file closed, whatever the extraction does; it returns what the
    extraction returns, and every failure of the extraction reaches the
    caller as [ProcessorError("Can't extract package info: ...")] around
    the exception. *)
Theorem extraction_closes_and_reports {lib : PyLib} e path fs hp
    asar_file json_header base_offset w1 :
  _asar_opener path (World fs hp)
  = (Ok (asar_file, json_header, base_offset), w1) ->
  let extraction :=
    fst (_extract_package_json e asar_file json_header base_offset w1) in
  let run := get_asar_info e path (World fs hp) in
  is_open w1 asar_file = true /\
  is_open (snd run) asar_file = false /\
  fst run =
  match extraction with
  | Ok v => Ok v
  | Raise x => Raise (ProcessorError "Can't extract package info: " (Some x))
  end.
Proof.
  intros Ho extraction run.
  destruct (opener_success_shape _ _ _ _ _ _ _ Ho)
    as (data & pos & Hfs & -> & ->).
  destruct (extract_outcome e fs hp data json_header base_offset) as (r & Hr).
  destruct (Hr pos) as (pos' & He).
  unfold run, extraction.
  rewrite (get_asar_info_run e path _ fs hp _ _ _ r _ Ho He), He.
  cbn [fst snd]. rewrite !is_open_last. repeat split.
Qed.

(** The entry is not JSON: the file is closed, and the decoder's exception
    is reported. *)
Lemma extraction_closes_and_reports_witness :
  let data :=
    Fragment.pack (Fragment.js "{'files':{'a':{'size':2,'offset':'0'}}}")
      "xy" in
  let run :=
    get_asar_info (lib := Fragment.lib) (Fragment.env_for "app.asar" "a")
      "app.asar" (Fragment.disk "app.asar" data) in
  is_open (World [("app.asar", data)] [File data 55 false]) O = true /\
  is_open (snd run) O = false /\
  fst run
  = Raise (ProcessorError "Can't extract package info: "
             (Some JSONDecodeError)).
Proof.
  intros data run.
  exact (extraction_closes_and_reports (lib := Fragment.lib)
           (Fragment.env_for "app.asar" "a") "app.asar"
           [("app.asar", data)] [] O
           (VDict [("files",
                    VDict [("a", VDict [("size", VInt 2);
                                        ("offset", VStr "0")])])])
           55 (World [("app.asar", data)] [File data 55 false]) eq_refl).
Defined.

(** ** What a run touches *)


(** ** What [main] makes of the entry *)

(** X3.  [main] succeeds exactly when [_read_auto_detect] returns a JSON
    object, and then it changes nothing of [self.env] but the version.  Every
    failure leaves [main] as a [ProcessorError]: [None] (also the value of an
    entry that is the JSON text [null]) as "File ... was not found.", and
    an entry that is another JSON value as the [AttributeError] of its
    missing [get]. *)
Theorem main_succeeds_iff_object {lib : PyLib}
    (_read_auto_detect : string -> bool -> (string -> M value) -> M value)
    e w :
  let found :=
    _read_auto_detect (input_asar_path e) (skip_single_root_dir e)
      (get_asar_info e) w in
  (forall e' w',
     main _read_auto_detect e w = (Ok e', w') <->
     exists d v,
       found = (Ok (VDict d), w') /\
       version_of e (VDict d) = Ok v /\
       e' = Env (input_asar_path e) (package_json e) (version_key e)
              (skip_single_root_dir e) (Some v)) /\
  (forall x w',
     main _read_auto_detect e w = (Raise x, w') ->
     is_ProcessorError x = true) /\
  (forall w',
     found = (Ok VNone, w') ->
     main _read_auto_detect e w
     = (Raise (ProcessorError
                 ("File '" ++ input_asar_path e ++ "' was not found.") None),
        w')) /\
  (forall v w',
     found = (Ok v, w') ->
     v <> VNone -> (forall d, v <> VDict d) ->
     main _read_auto_detect e w
     = (Raise (ProcessorError "" (Some AttributeError)), w')).
Proof.
  intros found. unfold found.
  repeat split.
  - unfold main, try_except, bind.
    destruct (_read_auto_detect _ _ _ w) as [[v|x] w1].
    + destruct v; simpl; try discriminate.
      unfold lift, version_of, py_get_default.
      destruct (dict_get d (version_key e)) as [v|] eqn:E;
        intros [= <- <-]; exists d; eexists; rewrite E; repeat split.
    + destruct (is_ProcessorError x); discriminate.
  - intros (d & v & H & Hv & ->).
    unfold main, try_except, bind. rewrite H. unfold lift. rewrite Hv.
    reflexivity.
  - apply main_raises_ProcessorError.
  - intros w' H. unfold main, try_except, bind. now rewrite H.
  - intros v w' H Hn Hd. unfold main, try_except, bind. rewrite H.
    destruct v; try reflexivity.
    + contradiction.
    + now destruct (Hd d).
Qed.

(** ** Entries with unusual fields *)

(** The extraction up to the [read], for an entry whose offset [int]
    accepts and lies in the range of [seek]. *)
Lemma extract_before_read {lib : PyLib} e fs hp data pos hdr base
    entry off K size :
  lookup_entry e hdr = Ok (VDict entry) ->
  dict_get entry "offset" = Some off ->
  py_int off = Ok K ->
  0 <= K + base <= max_offset ->
  read_size (match dict_get entry "size" with Some v => v | None => VNone end)
  = Ok size ->
  _extract_package_json e (List.length hp) hdr base
    (World fs (hp ++ [File data pos false]))
  = match file_read size (File data (K + base) false) with
    | (Ok raw, f) => (json_loads_bytes raw, World fs (hp ++ [f]))
    | (Raise x, f) => (Raise x, World fs (hp ++ [f]))
    end.
Proof.
  intros Hl Ho Hi HK Hs.
  unfold _extract_package_json, bind at 1, try_except, lift at 1.
  rewrite Hl.
  run_lift. unfold py_get at 1. rewrite Ho.
  run_lift. rewrite Hi.
  run_file_op. rewrite file_seek_ok by assumption. cbn [fst snd].
  run_lift. unfold py_get.
  assert (Hv : match dict_get entry "size" with
               | Some v => Ok v
               | None => Ok VNone
               end
               = Ok (match dict_get entry "size" with
                     | Some v => v
                     | None => VNone
                     end))
    by (destruct (dict_get entry "size"); reflexivity).
  rewrite Hv. run_lift. rewrite Hs.
  run_file_op.
  destruct (file_read size (File data (K + base) false)) as [[raw|x] f];
    reflexivity.
Qed.

(** X4.  An entry without ["size"], or with the size [null] or [-1]: the
    bytes from the start of the entry to the end of the file are read, and
    their JSON value is the result (the entry starts inside the file, which
    the machine can read at once). *)
Theorem entry_without_size_reads_to_end {lib : PyLib} e path fs hp data
    asar_file json_header base_offset w1 entry off K :
  dict_get fs path = Some data ->
  _asar_opener path (World fs hp)
  = (Ok (asar_file, json_header, base_offset), w1) ->
  lookup_entry e json_header = Ok (VDict entry) ->
  dict_get entry "offset" = Some off ->
  py_int off = Ok K ->
  dict_get entry "size" = None \/
  dict_get entry "size" = Some VNone \/
  dict_get entry "size" = Some (VInt (-1)) ->
  Z.of_nat (List.length data) <= max_offset ->
  Z.of_nat (List.length data) <= max_bytes ->
  0 <= K + base_offset <= Z.of_nat (List.length data) ->
  let rest := skipn (Z.to_nat (K + base_offset)) data in
  fst (_extract_package_json e asar_file json_header base_offset w1)
  = json_loads_bytes rest /\
  fst (get_asar_info e path (World fs hp)) = reported (json_loads_bytes rest).
Proof.
  intros Hfs Ho Hl Hoff Hint Hsize Hmo Hmb HK rest.
  destruct (opener_success_shape _ _ _ _ _ _ _ Ho)
    as (data' & pos & Hfs' & -> & ->).
  rewrite Hfs in Hfs'. injection Hfs' as <-.
  assert (Hrest : Z.of_nat (List.length rest) <= max_bytes).
  { unfold rest. rewrite length_skipn. lia. }
  assert (He : exists f,
             _extract_package_json e (List.length hp) json_header base_offset
               (World fs (hp ++ [File data pos false]))
             = (json_loads_bytes rest, World fs (hp ++ [f]))).
  { destruct Hsize as [Hs | [Hs | Hs]].
    - rewrite (extract_before_read e fs hp data pos json_header base_offset
                 entry off K None Hl Hoff Hint) by (rewrite ?Hs; auto; lia).
      unfold file_read, file_rest; simpl.
      destruct (Z.ltb_spec max_bytes
                  (Z.of_nat
                     (List.length (skipn (Z.to_nat (K + base_offset)) data))));
        [unfold rest in Hrest; lia|].
      eexists; reflexivity.
    - rewrite (extract_before_read e fs hp data pos json_header base_offset
                 entry off K None Hl Hoff Hint) by (rewrite ?Hs; auto; lia).
      unfold file_read, file_rest; simpl.
      destruct (Z.ltb_spec max_bytes
                  (Z.of_nat
                     (List.length (skipn (Z.to_nat (K + base_offset)) data))));
        [unfold rest in Hrest; lia|].
      eexists; reflexivity.
    - rewrite (extract_before_read e fs hp data pos json_header base_offset
                 entry off K (Some (-1)) Hl Hoff Hint)
        by (rewrite ?Hs; auto; lia).
      rewrite file_read_all by exact Hrest.
      eexists; reflexivity. }
  destruct He as (f & He).
  split; [now rewrite He|].
  now rewrite (get_asar_info_run e path _ fs hp _ _ _ _ _ Ho He).
Qed.

(** The header gives the entry an offset and no size. *)
Lemma entry_without_size_reads_to_end_witness :
  fst (get_asar_info (lib := Fragment.lib)
         (Fragment.env_for "app.asar" "a") "app.asar"
         (Fragment.disk "app.asar"
            (Fragment.pack (Fragment.js "{'files':{'a':{'offset':'2'}}}")
               (Fragment.js "xy{'version':'3'}"))))
  = Ok (VDict [("version", VStr "3")]).
Proof.
  refine (proj2
    (entry_without_size_reads_to_end (lib := Fragment.lib)
       (Fragment.env_for "app.asar" "a") "app.asar"
       [("app.asar",
         Fragment.pack (Fragment.js "{'files':{'a':{'offset':'2'}}}")
           (Fragment.js "xy{'version':'3'}"))]
       []
       (Fragment.pack (Fragment.js "{'files':{'a':{'offset':'2'}}}")
          (Fragment.js "xy{'version':'3'}"))
       O
       (VDict [("files", VDict [("a", VDict [("offset", VStr "2")])])])
       46
       (World
          [("app.asar",
            Fragment.pack (Fragment.js "{'files':{'a':{'offset':'2'}}}")
              (Fragment.js "xy{'version':'3'}"))]
          [File
             (Fragment.pack (Fragment.js "{'files':{'a':{'offset':'2'}}}")
                (Fragment.js "xy{'version':'3'}"))
             46 false])
       [("offset", VStr "2")] (VStr "2") 2
       _ _ _ _ _ _ _ _ _));
    try (left; reflexivity); concrete.
Defined.

(** X5.  An entry that cannot be located in the data is a failure that
    [get_asar_info] reports with its cause: an entry that is not a JSON
    object has no [get] ([AttributeError]); an object without ["offset"]
    gives [int(None)] ([TypeError]); an ["offset"] that is no number
    ([int] refuses the string) is a [ValueError].  Nothing is read. *)
Theorem malformed_entry_reported {lib : PyLib} e path fs hp
    asar_file json_header base_offset w1 entry :
  _asar_opener path (World fs hp)
  = (Ok (asar_file, json_header, base_offset), w1) ->
  lookup_entry e json_header = Ok entry ->
  match entry with
  | VDict d =>
      match dict_get d "offset" with
      | None => True
      | Some (VStr s) => int_of_str s = None
      | Some _ => False
      end
  | _ => True
  end ->
  let cause :=
    match entry with
    | VDict d =>
        match dict_get d "offset" with
        | None => TypeError
        | Some _ => ValueError
        end
    | _ => AttributeError
    end in
  _extract_package_json e asar_file json_header base_offset w1
  = (Raise cause, w1) /\
  fst (get_asar_info e path (World fs hp))
  = Raise (ProcessorError "Can't extract package info: " (Some cause)).
Proof.
  intros Ho Hl Hbad cause.
  assert (He : _extract_package_json e asar_file json_header base_offset w1
               = (Raise cause, w1)).
  { unfold _extract_package_json, bind at 1, try_except, lift at 1.
    rewrite Hl. unfold cause.
    destruct entry as [| | | | |l|d]; try reflexivity.
    run_lift. unfold py_get at 1.
    destruct (dict_get d "offset") as [off|]; [|reflexivity].
    destruct off; try contradiction.
    run_lift. simpl. now rewrite Hbad. }
  split; [exact He|].
  now rewrite (get_asar_info_reports e path fs hp _ _ _ _ Ho), He.
Qed.

(** The entry "a" is a number, not an object. *)
Lemma malformed_entry_reported_witness :
  fst (get_asar_info (lib := Fragment.lib)
         (Fragment.env_for "app.asar" "a") "app.asar"
         (Fragment.disk "app.asar"
            (Fragment.pack (Fragment.js "{'files':{'a':7}}") "1")))
  = Raise (ProcessorError "Can't extract package info: "
             (Some AttributeError)).
Proof.
  refine (proj2
    (malformed_entry_reported (lib := Fragment.lib)
       (Fragment.env_for "app.asar" "a") "app.asar"
       [("app.asar", Fragment.pack (Fragment.js "{'files':{'a':7}}") "1")]
       [] O (VDict [("files", VDict [("a", VInt 7)])]) 33
       (World
          [("app.asar", Fragment.pack (Fragment.js "{'files':{'a':7}}") "1")]
          [File (Fragment.pack (Fragment.js "{'files':{'a':7}}") "1") 33
             false])
       (VInt 7) _ _ _)); concrete.
Defined.

(** ** Extracting again *)

(** X6.  The extraction seeks to an absolute offset, so its outcome does
    not depend on the cursor of the file: on the open file that
    [_asar_opener] returned it can be run again, after itself or after the
    extraction of another entry, with the same outcome. *)
Theorem extraction_repeatable {lib : PyLib} e e' path fs hp
    asar_file json_header base_offset w1 :
  _asar_opener path (World fs hp)
  = (Ok (asar_file, json_header, base_offset), w1) ->
  let extract e w :=
    _extract_package_json e asar_file json_header base_offset w in
  fst (extract e (snd (extract e w1))) = fst (extract e w1) /\
  fst (extract e (snd (extract e' w1))) = fst (extract e w1) /\
  is_open (snd (extract e w1)) asar_file = true.
Proof.
  intros Ho extract.
  destruct (opener_success_shape _ _ _ _ _ _ _ Ho)
    as (data & pos & Hfs & -> & ->).
  destruct (extract_outcome e fs hp data json_header base_offset) as (r & Hr).
  destruct (extract_outcome e' fs hp data json_header base_offset)
    as (r' & Hr').
  destruct (Hr pos) as (p1 & H1).
  destruct (Hr' pos) as (p1' & H1').
  destruct (Hr p1) as (p2 & H2).
  destruct (Hr p1') as (p2' & H2').
  unfold extract. rewrite H1, H1'. cbn [fst snd]. rewrite H2, H2'.
  cbn [fst snd]. rewrite is_open_last. repeat split.
Qed.

(** Two entries of one archive: "a" is read after "b". *)
Lemma extraction_repeatable_witness :
  let data :=
    Fragment.pack
      (Fragment.js
         "{'files':{'a':{'size':1,'offset':'0'},'b':{'size':1,'offset':'1'}}}")
      "12" in
  let hdr :=
    VDict [("files",
            VDict [("a", VDict [("size", VInt 1); ("offset", VStr "0")]);
                   ("b", VDict [("size", VInt 1); ("offset", VStr "1")])])] in
  let w1 := World [("app.asar", data)] [File data 83 false] in
  fst (_extract_package_json (lib := Fragment.lib)
         (Fragment.env_for "app.asar" "a") O hdr 83
         (snd (_extract_package_json (lib := Fragment.lib)
                 (Fragment.env_for "app.asar" "b") O hdr 83 w1)))
  = fst (_extract_package_json (lib := Fragment.lib)
           (Fragment.env_for "app.asar" "a") O hdr 83 w1).
Proof.
  intros data hdr w1.
  exact (proj1 (proj2
    (extraction_repeatable (lib := Fragment.lib)
       (Fragment.env_for "app.asar" "a") (Fragment.env_for "app.asar" "b")
       "app.asar" [("app.asar", data)] [] O hdr 83 w1 eq_refl))).
Defined.

(** ** The base offset *)

Lemma file_read_result {lib : PyLib} size data pos raw f :
  file_read size (File data pos false) = (Ok raw, f) ->
  f = File data (pos + Z.of_nat (List.length raw)) false /\
  (List.length raw <= List.length (skipn (Z.to_nat pos) data))%nat /\
  match size with
  | Some n => n = -1 \/ Z.of_nat (List.length raw) <= n
  | None => True
  end.
Proof.
  unfold file_read, file_rest; simpl.
  destruct size as [n|].
  - destruct ((n <? PY_SSIZE_T_MIN) || (PY_SSIZE_T_MAX <? n));
      [discriminate|].
    destruct (Z.ltb_spec n (-1)); [discriminate|].
    destruct (Z.eqb_spec n (-1)).
    + destruct (max_bytes <? _); [discriminate|].
      intros [= <- <-]. repeat split; auto.
    + destruct (max_bytes <? n); [discriminate|].
      intros [= <- <-]. repeat split.
      * rewrite length_firstn. lia.
      * right. rewrite length_firstn. lia.
  - destruct (max_bytes <? _); [discriminate|].
    intros [= <- <-]. repeat split; auto.
Qed.

(** X7.  When [_asar_opener] returns, the base offset is the position of
    the cursor of the file it returns, which is open and is the newest file
    object.  The base offset is at least 16; it is not behind the end of a
    file of 16 bytes or more, and not more than [V - 8] behind offset 16
    when the size field [V] is 8 or more. *)
Theorem base_offset_is_cursor {lib : PyLib} path fs hp data
    asar_file json_header base_offset w1 :
  dict_get fs path = Some data ->
  _asar_opener path (World fs hp)
  = (Ok (asar_file, json_header, base_offset), w1) ->
  asar_file = List.length hp /\
  w1 = World fs (hp ++ [File data base_offset false]) /\
  16 <= base_offset <= Z.max 16 (Z.of_nat (List.length data)) /\
  (8 <= size_field data -> base_offset <= 16 + (size_field data - 8)).
Proof.
  intros Hfs Ho.
  destruct (Nat.le_gt_cases 8 (List.length data)) as [Hlen|Hlen].
  2:{ rewrite (asar_opener_short path fs hp data Hfs Hlen) in Ho.
      discriminate. }
  rewrite (asar_opener_run path fs hp data Hfs Hlen) in Ho.
  destruct (file_read (Some (size_field data - 8)) (File data 16 false))
    as [[raw|x] f] eqn:Hr; [|discriminate].
  destruct (file_read_result _ _ _ _ _ Hr) as (-> & Hraw & Hn).
  destruct (bytes_decode raw) as [header|]; [|discriminate].
  destruct (json_loads header); [|discriminate].
  cbn [f_pos] in Ho.
  assert (E1 : asar_file = List.length hp) by congruence.
  assert (E2 : base_offset = 16 + Z.of_nat (List.length raw)) by congruence.
  assert (E3 : w1 = World fs (hp ++ [File data base_offset false]))
    by congruence.
  change (Z.to_nat 16) with 16%nat in Hraw. rewrite length_skipn in Hraw.
  repeat split; try assumption; lia.
Qed.

Lemma base_offset_is_cursor_witness :
  let data := Fragment.pack (Fragment.js "{'files':{}}") "1234" in
  World [("app.asar", data)] [File data 28 false]
  = World [("app.asar", data)] ([] ++ [File data 28 false]) /\
  16 <= 28 <= Z.max 16 (Z.of_nat (List.length data)).
Proof.
  intros data.
  refine (let H :=
    base_offset_is_cursor (lib := Fragment.lib) "app.asar"
      [("app.asar", data)] [] data O (VDict [("files", VDict [])]) 28
      (World [("app.asar", data)] [File data 28 false]) eq_refl eq_refl in
    conj (proj1 (proj2 H)) (proj1 (proj2 (proj2 H)))).
Defined.

(** ** Offsets outside of the file system's range *)

(** X8.  An entry whose offset, added to the base offset, is negative or
    beyond what the file system accepts: [seek] fails ([OSError]; or
    [ValueError] when the sum does not fit the offset type), nothing is
    read, and [get_asar_info] reports the exception. *)
Theorem offset_out_of_range_reported {lib : PyLib} e path fs hp
    asar_file json_header base_offset w1 entry off K :
  _asar_opener path (World fs hp)
  = (Ok (asar_file, json_header, base_offset), w1) ->
  lookup_entry e json_header = Ok (VDict entry) ->
  dict_get entry "offset" = Some off ->
  py_int off = Ok K ->
  K + base_offset < 0 \/ max_offset < K + base_offset ->
  let cause :=
    if (K + base_offset <? PY_SSIZE_T_MIN)
       || (PY_SSIZE_T_MAX <? K + base_offset)
    then ValueError else OSError in
  _extract_package_json e asar_file json_header base_offset w1
  = (Raise cause, w1) /\
  fst (get_asar_info e path (World fs hp))
  = Raise (ProcessorError "Can't extract package info: " (Some cause)).
Proof.
  intros Ho Hl Hoff Hint HK cause.
  assert (He : _extract_package_json e asar_file json_header base_offset w1
               = (Raise cause, w1)).
  { destruct (opener_success_shape _ _ _ _ _ _ _ Ho)
      as (data & pos & Hfs & -> & ->).
    unfold _extract_package_json, bind at 1, try_except, lift at 1.
    rewrite Hl.
    run_lift. unfold py_get at 1. rewrite Hoff.
    run_lift. rewrite Hint.
    run_file_op. unfold file_seek, cause; simpl.
    destruct ((K + base_offset <? PY_SSIZE_T_MIN)
              || (PY_SSIZE_T_MAX <? K + base_offset)); [reflexivity|].
    destruct (Z.ltb_spec (K + base_offset) 0) as [Hn|Hn]; [reflexivity|].
    destruct (Z.ltb_spec max_offset (K + base_offset)); [reflexivity | lia]. }
  split; [exact He|].
  now rewrite (get_asar_info_reports e path fs hp _ _ _ _ Ho), He.
Qed.

(** The offset "-100" of an entry behind a header that ends at byte 58. *)
Lemma offset_out_of_range_reported_witness :
  fst (get_asar_info (lib := Fragment.lib)
         (Fragment.env_for "app.asar" "a") "app.asar"
         (Fragment.disk "app.asar"
            (Fragment.pack
               (Fragment.js "{'files':{'a':{'size':1,'offset':'-100'}}}")
               "1")))
  = Raise (ProcessorError "Can't extract package info: " (Some OSError)).
Proof.
  refine (proj2
    (offset_out_of_range_reported (lib := Fragment.lib)
       (Fragment.env_for "app.asar" "a") "app.asar"
       [("app.asar",
         Fragment.pack
           (Fragment.js "{'files':{'a':{'size':1,'offset':'-100'}}}") "1")]
       [] O
       (VDict [("files",
                VDict [("a", VDict [("size", VInt 1);
                                    ("offset", VStr "-100")])])])
       58
       (World
          [("app.asar",
            Fragment.pack
              (Fragment.js "{'files':{'a':{'size':1,'offset':'-100'}}}")
              "1")]
          [File
             (Fragment.pack
                (Fragment.js "{'files':{'a':{'size':1,'offset':'-100'}}}")
                "1")
             58 false])
       [("size", VInt 1); ("offset", VStr "-100")] (VStr "-100") (-100)
       _ _ _ _ _)); try (left; reflexivity); concrete.
Defined.

(** * Processors: exceptions and state

    What the processors below share: the exceptions that they meet, and
    computations that thread a state and may raise. *)
Module Proc.

(** The exceptions: those of the classes met before, and four more.  A
    [ProcessorError] keeps its text and the exception it was made from. *)
Inductive exc : Type :=
| Builtin (e : exn)
| NameError (name : string)
| ParseError
| re_error
| ProcessorError (text : string) (cause : option exc).

Definition is_ProcessorError (x : exc) : bool :=
  match x with ProcessorError _ _ => true | _ => false end.

Inductive outcome (A : Type) : Type :=
| Returns (a : A)
| Raises (x : exc).
Arguments Returns {A} a.
Arguments Raises {A} x.

(** The truth value of a string or [None]. *)
Definition truthy (v : option string) : bool :=
  match v with
  | Some (String _ _) => true
  | _ => false
  end.

Section Monad.
Context {S : Type}.

Definition P (A : Type) : Type := S -> outcome A * S.

Definition pret {A} (a : A) : P A := fun s => (Returns a, s).

Definition praise {A} (x : exc) : P A := fun s => (Raises x, s).

Definition pbind {A B} (c : P A) (k : A -> P B) : P B := fun s =>
  match c s with
  | (Returns a, s') => k a s'
  | (Raises x, s') => (Raises x, s')
  end.

(** A value or an exception of the classes met before. *)
Definition pure {A} (r : result A) : P A := fun s =>
  match r with
  | Ok a => (Returns a, s)
  | Raise e => (Raises (Builtin e), s)
  end.

(** [try: c except ProcessorError: raise except Exception as ex: raise
    ProcessorError(ex)] *)
Definition reraise_as_ProcessorError {A} (c : P A) : P A := fun s =>
  match c s with
  | (Returns a, s') => (Returns a, s')
  | (Raises ex, s') =>
      if is_ProcessorError ex then (Raises ex, s')
      else (Raises (ProcessorError "" (Some ex)), s')
  end.

End Monad.
Arguments P S A : clear implicits.

Notation "x <-- c ;; k" := (pbind c (fun x => k))
  (at level 61, c at next level, right associativity).

End Proc.

(** * PackageInfoReader: a key of a PackageInfo file

    A shallow embedding of [SharedProcessors/PackageInfoReader.py].

    - An XML element is its tag, its attributes, its text and its children
      ([xml.etree.ElementTree.Element]; the tail is not used by the code).
    - [ET.fromstring], [str.strip] and the text of a [pathlib.Path] are an
      interface ([XmlLib]).  Files are looked up under the text of the path:
      the files of the table are those that [open] accepts, and what the
      system answers for another path is part of the interface
      ([stat_outside]).
    - [self.env] is a dictionary that the processor changes in place: it is
      part of the state, so that it can be inspected after a failure.  The
      input variables are strings, as a recipe gives them. *)
Module PackageInfoReader.

Import Proc.

Inductive element : Type :=
| Element (tag : string) (attrib : list (string * string))
    (text : option string) (children : list element).

Definition tag (x : element) : string :=
  match x with Element t _ _ _ => t end.

Definition attrib (x : element) : list (string * string) :=
  match x with Element _ a _ _ => a end.

Definition text (x : element) : option string :=
  match x with Element _ _ t _ => t end.

Definition children (x : element) : list element :=
  match x with Element _ _ _ c => c end.

(** [x.get(key)] *)
Definition get (x : element) (key : string) : option string :=
  dict_get (attrib x) key.

(** What [os.stat] answers for a path that [open] does not accept. *)
Inductive stat_answer : Type :=
| absent
    (* [ENOENT], [ENOTDIR], [EBADF] or [ELOOP], or a path that cannot be
       encoded: [exists()] is [False] *)
| present
    (* something that cannot be opened for reading: a directory, a file
       without the permission *)
| stat_fails.
    (* another error ([EACCES] on a directory above, [ENAMETOOLONG]):
       [exists()] raises the [OSError] *)

Class XmlLib : Type := {
  (** [ET.fromstring] on [bytes]; [None] stands for [ParseError] *)
  fromstring : bytes -> option element;
  (** [s.strip()] *)
  strip : string -> string;
  (** [str(pathlib.Path(s))] *)
  path_str : string -> string;
  (** [os.stat] on a path that is no file of the table *)
  stat_outside : string -> stat_answer
}.

(** [self.env] and the files. *)
Record state : Type := State {
  s_env : list (string * string);
  s_world : world
}.

(** A computation on the files. *)
Definition io {A} (c : M A) : P state A := fun s =>
  match c (s_world s) with
  | (Ok a, w) => (Returns a, State (s_env s) w)
  | (Raise e, w) => (Raises (Builtin e), State (s_env s) w)
  end.

(** [self.env.get(key)] *)
Definition env_get (key : string) : P state (option string) := fun s =>
  (Returns (dict_get (s_env s) key), s).

(** [self.env[key]] *)
Definition env_getitem (key : string) : P state string := fun s =>
  match dict_get (s_env s) key with
  | Some v => (Returns v, s)
  | None => (Raises (Builtin (KeyError key)), s)
  end.

(** [self.env[key] = v] *)
Definition env_set (key v : string) : P state unit := fun s =>
  (Returns tt, State (dict_set (s_env s) key v) (s_world s)).

Section Processor.
Context {lib : PyLib} {xml : XmlLib}.

(** [with open(path, "rb") as fp: fp.read()] *)
Definition read_binary (path : string) : M bytes :=
  fp <- open_rb path ;;
  try_finally (on_file fp (file_read None)) (on_file fp file_close).

(** [pathlib.Path.exists]: the answer of [os.stat]; an error that is not
    one of the four that mean "not there" is raised again. *)
Definition exists_ (path : string) : P state bool := fun s =>
  match dict_get (w_fs (s_world s)) path with
  | Some _ => (Returns true, s)
  | None =>
      match stat_outside path with
      | absent => (Returns false, s)
      | present => (Returns true, s)
      | stat_fails => (Raises (Builtin OSError), s)
      end
  end.

(** The loop body returns in its first round, so the loop is a test for a
    first child.  [None] is the value of falling off the end. *)
Fixpoint recursive_element_search (xml_element : element)
    (target_key : string) : result (option string) :=
  match children xml_element with
  | [] => Ok None
  | child_element :: _ =>
      let target_value := get xml_element target_key in
      (* If we've found what we're looking for, return it. *)
      if truthy target_value then Ok target_value
      else
        (* Check the tag for the key *)
        if String.eqb (tag child_element) target_key then
          match text child_element with
          | None => Raise AttributeError
          | Some t =>
              let target_value := Some (strip t) in
              if truthy target_value then Ok target_value
              else recursive_element_search child_element target_key
          end
        (* Otherwise, continue recursion *)
        else recursive_element_search child_element target_key
  end.

Definition main : P state unit :=
  pkg_info_path <-- env_get "pkg_info_path" ;;
  _ <-- (if truthy pkg_info_path then pret tt
         else praise (ProcessorError
                "Expected a 'pkg_info_path' input variable but none is set!"
                None)) ;;
  target_key <-- env_get "target_key" ;;
  _ <-- (if truthy target_key then pret tt
         else praise (ProcessorError
                "Expected a 'target_key' input variable but none is set!"
                None)) ;;
  let target_key := match target_key with Some k => k | None => "" end in
  (* Convert to pathlib.Path for further processing *)
  pkg_info_path <-- env_getitem "pkg_info_path" ;;
  let pkg_info_path := path_str pkg_info_path in
  found <-- exists_ pkg_info_path ;;
  _ <-- (if found then pret tt
         else praise (ProcessorError
                ("File from previous processor (pkg_info_path: "
                 ++ pkg_info_path ++ ") does not exist!") None)) ;;
  reraise_as_ProcessorError
    ((* Open file and read its contents *)
     raw <-- io (read_binary pkg_info_path) ;;
     package_info <-- match fromstring raw with
                      | Some x => pret x
                      | None => praise ParseError
                      end ;;
     (* Attempt to find the target key in the `pkg-info` root object *)
     let target_value := get package_info target_key in
     _ <-- (if truthy target_value
            then env_set "target_value"
                   (match target_value with Some v => v | None => "" end)
            else pret tt) ;;
     target_value <--
       (if String.eqb (tag package_info) target_key
        then praise (NameError "target_valuechild_element")
        else pure (recursive_element_search package_info target_key)) ;;
     (* Make sure we've found a value *)
     _ <-- (if truthy target_value then pret tt
            else praise (ProcessorError
                   ("Unable to locate a matching value for "
                    ++ target_key ++ "!") None)) ;;
     (* the message of [self.output] *)
     _ <-- env_getitem "target_value" ;;
     pret tt).

End Processor.

(** The element with only its first child, and that child likewise. *)
Fixpoint first_child_chain (x : element) : element :=
  match x with
  | Element t a txt [] => Element t a txt []
  | Element t a txt (c :: _) => Element t a txt [first_child_chain c]
  end.

(** ** The search *)

(** Induction along the chain of first children. *)
Lemma element_chain_ind (Q : element -> Prop) :
  (forall t a txt, Q (Element t a txt [])) ->
  (forall t a txt c rest, Q c -> Q (Element t a txt (c :: rest))) ->
  forall x, Q x.
Proof.
  intros H0 H1. fix IH 1.
  intros [t a txt [|c rest]]; [apply H0 | apply H1, IH].
Qed.

(** The search returns [None] or a string that is not empty. *)
Lemma search_result_truthy {xml : XmlLib} x target_key tv :
  recursive_element_search x target_key = Ok tv ->
  tv = None \/ truthy tv = true.
Proof.
  induction x as [t a txt | t a txt c rest IH] using element_chain_ind;
    cbn [recursive_element_search children]; unfold get; cbn [attrib].
  - intros [= <-]. now left.
  - destruct (truthy (dict_get a target_key)) eqn:Ha.
    + intros [= <-]. now right.
    + destruct (String.eqb (tag c) target_key); [|exact IH].
      destruct (text c) as [s|]; [|discriminate].
      destruct (truthy (Some (strip s))) eqn:Hs; [|exact IH].
      intros [= <-]. now right.
Qed.

(** X9.  The search follows first children only: its result is that of the
    search in the element stripped, at every level, of all children but the
    first.  What a second or later child holds is never found. *)
Theorem search_follows_first_children {xml : XmlLib} x target_key :
  recursive_element_search x target_key
  = recursive_element_search (first_child_chain x) target_key.
Proof.
  induction x as [t a txt | t a txt c rest IH] using element_chain_ind.
  - reflexivity.
  - cbn [recursive_element_search first_child_chain children].
    unfold get; cbn [attrib].
    destruct (truthy (dict_get a target_key)); [reflexivity|].
    assert (Htag : tag (first_child_chain c) = tag c)
      by (destruct c as [? ? ? [|? ?]]; reflexivity).
    assert (Htext : text (first_child_chain c) = text c)
      by (destruct c as [? ? ? [|? ?]]; reflexivity).
    rewrite Htag, Htext.
    destruct (String.eqb (tag c) target_key).
    + destruct (text c) as [s|]; [|reflexivity].
      destruct (truthy (Some (strip s))); [reflexivity | apply IH].
    + apply IH.
Qed.

(** An element on the chain of first children of [x]. *)
Inductive on_chain (x : element) : element -> Prop :=
| chain_here : on_chain x x
| chain_child y c rest :
    on_chain x y -> children y = c :: rest -> on_chain x c.

(** X10.  A value that the search returns is not empty, and it is read off
    the chain of first children: it is the attribute of that name of an
    element of the chain that has a child, or the stripped text of the first
    child of an element of the chain, when the tag of that child is the
    name. *)
Theorem search_result_origin {xml : XmlLib} x target_key v :
  recursive_element_search x target_key = Ok (Some v) ->
  v <> EmptyString /\
  exists y c rest,
    on_chain x y /\ children y = c :: rest /\
    (get y target_key = Some v \/
     (tag c = target_key /\ exists t, text c = Some t /\ strip t = v)).
Proof.
  intros H.
  assert (G : forall y, on_chain x y ->
              recursive_element_search y target_key = Ok (Some v) ->
              v <> EmptyString /\
              exists z c rest,
                on_chain x z /\ children z = c :: rest /\
                (get z target_key = Some v \/
                 (tag c = target_key /\
                  exists t, text c = Some t /\ strip t = v))).
  2:{ exact (G x (chain_here x) H). }
  clear H. intros y.
  induction y as [t a txt | t a txt c rest IH] using element_chain_ind;
    intros Hy Hs.
  - discriminate.
  - cbn [recursive_element_search children] in Hs.
    unfold get in Hs; cbn [attrib] in Hs.
    destruct (truthy (dict_get a target_key)) eqn:Ha.
    + injection Hs as Hs. split.
      * intros ->. rewrite Hs in Ha. discriminate.
      * exists (Element t a txt (c :: rest)), c, rest.
        split; [exact Hy|]. split; [reflexivity|]. left. exact Hs.
    + assert (Hc : on_chain x c)
        by (eapply chain_child; [exact Hy | reflexivity]).
      destruct (String.eqb_spec (tag c) target_key) as [Et|Et].
      * destruct (text c) as [s|] eqn:Etxt; [|discriminate].
        destruct (truthy (Some (strip s))) eqn:Hv.
        -- injection Hs as Hs. split.
           ++ intros ->. rewrite Hs in Hv. discriminate.
           ++ exists (Element t a txt (c :: rest)), c, rest.
              split; [exact Hy|]. split; [reflexivity|]. right.
              split; [exact Et|]. exists s. split; auto.
        -- exact (IH Hc Hs).
      * exact (IH Hc Hs).
Qed.

(** ** Runs of [main] *)

Section MainRuns.
Context {lib : PyLib} {xml : XmlLib}.

(** The file is read to its end and closed, also when the machine cannot
    hold its bytes. *)
Lemma read_binary_run path fs hp data :
  dict_get fs path = Some data ->
  read_binary path (World fs hp) =
  if max_bytes <? Z.of_nat (List.length data)
  then (Raise MemoryError, World fs (hp ++ [File data 0 true]))
  else (Ok data,
        World fs (hp ++ [File data (Z.of_nat (List.length data)) true])).
Proof.
  intros Hfs. unfold read_binary, bind.
  rewrite (open_rb_ok _ _ _ _ Hfs).
  unfold try_finally. rewrite on_file_last.
  unfold file_read, file_rest; simpl.
  destruct (max_bytes <? Z.of_nat (List.length data));
    simpl; rewrite on_file_last; reflexivity.
Qed.

(** [self.env] after the test of the root element for the key. *)
Definition env_after_root (env : list (string * string)) (root : element)
    (target_key : string) : list (string * string) :=
  match get root target_key with
  | Some (String c v) => dict_set env "target_value" (String c v)
  | _ => env
  end.

(** A run of [main] with both input variables set, on a file that is
    there. *)
Lemma main_run env fs hp pkg_info_path target_key data :
  dict_get env "pkg_info_path" = Some pkg_info_path ->
  truthy (Some pkg_info_path) = true ->
  dict_get env "target_key" = Some target_key ->
  truthy (Some target_key) = true ->
  dict_get fs (path_str pkg_info_path) = Some data ->
  main (State env (World fs hp)) =
  if max_bytes <? Z.of_nat (List.length data)
  then (Raises (ProcessorError "" (Some (Builtin MemoryError))),
        State env (World fs (hp ++ [File data 0 true])))
  else
    let w := World fs
               (hp ++ [File data (Z.of_nat (List.length data)) true]) in
    match fromstring data with
    | None => (Raises (ProcessorError "" (Some ParseError)), State env w)
    | Some root =>
        let env' := env_after_root env root target_key in
        if String.eqb (tag root) target_key
        then (Raises (ProcessorError ""
                        (Some (NameError "target_valuechild_element"))),
              State env' w)
        else
          match recursive_element_search root target_key with
          | Raise e =>
              (Raises (ProcessorError "" (Some (Builtin e))), State env' w)
          | Ok target_value =>
              if truthy target_value
              then
                match dict_get env' "target_value" with
                | Some _ => (Returns tt, State env' w)
                | None =>
                    (Raises (ProcessorError ""
                               (Some (Builtin (KeyError "target_value")))),
                     State env' w)
                end
              else
                (Raises (ProcessorError
                           ("Unable to locate a matching value for "
                            ++ target_key ++ "!") None),
                 State env' w)
          end
    end.
Proof.
  intros Hp Tp Hk Tk Hfs.
  unfold main.
  unfold pbind at 1, env_get at 1; cbn [s_env]. rewrite Hp, Tp.
  unfold pbind at 1, pret at 1.
  unfold pbind at 1, env_get at 1; cbn [s_env]. rewrite Hk, Tk.
  unfold pbind at 1, pret at 1.
  unfold pbind at 1, env_getitem at 1; cbn [s_env]. rewrite Hp.
  unfold pbind at 1, exists_ at 1; cbn [s_world w_fs]. rewrite Hfs.
  unfold pbind at 1, pret at 1.
  unfold reraise_as_ProcessorError.
  unfold pbind at 1, io at 1; cbn [s_world s_env].
  rewrite (read_binary_run _ _ _ _ Hfs).
  destruct (max_bytes <? Z.of_nat (List.length data)); [reflexivity|].
  unfold pbind at 1.
  destruct (fromstring data) as [root|]; [|reflexivity].
  unfold pret at 1. unfold env_after_root.
  unfold pbind at 1.
  destruct (get root target_key) as [[|c v]|] eqn:Hg; cbn [truthy];
    unfold pret at 1, env_set; cbn [s_env s_world].
  all: unfold pbind at 1.
  all: destruct (String.eqb (tag root) target_key); [reflexivity|].
  all: unfold pure.
  all: destruct (recursive_element_search root target_key) as [tv|e];
    [|reflexivity].
  all: unfold pbind at 1.
  all: destruct (truthy tv); [|reflexivity].
  all: unfold pret at 1, pbind, env_getitem; cbn [s_env].
  all: match goal with
       | |- context [dict_get ?d "target_value"] =>
           destruct (dict_get d "target_value")
       end; reflexivity.
Qed.

End MainRuns.

Section MainFacts.
Context {lib : PyLib} {xml : XmlLib}.

Lemma main_without_path s :
  truthy (dict_get (s_env s) "pkg_info_path") = false ->
  main s =
  (Raises (ProcessorError
             "Expected a 'pkg_info_path' input variable but none is set!"
             None), s).
Proof.
  intros H. unfold main, pbind at 1, env_get at 1. now rewrite H.
Qed.

Lemma main_without_key s :
  truthy (dict_get (s_env s) "pkg_info_path") = true ->
  truthy (dict_get (s_env s) "target_key") = false ->
  main s =
  (Raises (ProcessorError
             "Expected a 'target_key' input variable but none is set!"
             None), s).
Proof.
  intros Hp Hk. unfold main, pbind at 1, env_get at 1. rewrite Hp.
  unfold pbind at 1, pret at 1.
  unfold pbind at 1, env_get at 1. now rewrite Hk.
Qed.

Lemma main_without_file s pkg_info_path :
  dict_get (s_env s) "pkg_info_path" = Some pkg_info_path ->
  truthy (Some pkg_info_path) = true ->
  truthy (dict_get (s_env s) "target_key") = true ->
  dict_get (w_fs (s_world s)) (path_str pkg_info_path) = None ->
  main s =
  match stat_outside (path_str pkg_info_path) with
  | absent =>
      (Raises (ProcessorError
                 ("File from previous processor (pkg_info_path: "
                  ++ path_str pkg_info_path ++ ") does not exist!") None), s)
  | present => (Raises (ProcessorError "" (Some (Builtin OSError))), s)
  | stat_fails => (Raises (Builtin OSError), s)
  end.
Proof.
  intros Hp Tp Hk Hfs. unfold main, pbind at 1, env_get at 1.
  rewrite Hp, Tp.
  unfold pbind at 1, pret at 1.
  unfold pbind at 1, env_get at 1. rewrite Hk.
  unfold pbind at 1, pret at 1.
  unfold pbind at 1, env_getitem at 1. rewrite Hp.
  unfold pbind at 1, exists_ at 1. rewrite Hfs.
  destruct (stat_outside (path_str pkg_info_path)); try reflexivity.
  unfold pbind at 1, pret at 1.
  unfold reraise_as_ProcessorError.
  unfold pbind at 1, io at 1, read_binary, bind, open_rb.
  destruct s as [env [fs hp]]. cbn [s_world s_env w_fs] in *.
  now rewrite Hfs.
Qed.

End MainFacts.

(** X11.  A failure of [main] reaches the caller as a [ProcessorError],
    but for one: the [OSError] of [pkg_info_path.exists()], which stands
    before the [try] statement and is raised for a path that the system
    cannot examine; nothing has been changed then.  [main] writes no file,
    and the one file object that it may create is closed when it returns or
    fails. *)
Theorem main_failures_and_file_objects {lib : PyLib} {xml : XmlLib} s :
  let run := main s in
  (forall x,
     fst run = Raises x ->
     is_ProcessorError x = true \/
     (x = Builtin OSError /\ snd run = s /\
      exists pkg_info_path,
        dict_get (s_env s) "pkg_info_path" = Some pkg_info_path /\
        dict_get (w_fs (s_world s)) (path_str pkg_info_path) = None /\
        stat_outside (path_str pkg_info_path) = stat_fails)) /\
  w_fs (s_world (snd run)) = w_fs (s_world s) /\
  exists created,
    w_heap (s_world (snd run)) = (w_heap (s_world s) ++ created)%list /\
    (List.length created <= 1)%nat /\
    forallb f_closed created = true.
Proof.
  intros run. unfold run. destruct s as [env [fs hp]].
  destruct (truthy (dict_get env "pkg_info_path")) eqn:Tp.
  2:{ rewrite main_without_path by exact Tp. cbn [fst snd s_world w_fs w_heap].
      repeat split.
      - intros x [= <-]. now left.
      - exists []. rewrite app_nil_r. repeat split. auto. }
  destruct (truthy (dict_get env "target_key")) eqn:Tk.
  2:{ rewrite main_without_key by assumption. cbn [fst snd s_world w_fs w_heap].
      repeat split.
      - intros x [= <-]. now left.
      - exists []. rewrite app_nil_r. repeat split. auto. }
  destruct (dict_get env "pkg_info_path") as [p|] eqn:Hp; [|discriminate].
  destruct (dict_get env "target_key") as [k|] eqn:Hk; [|discriminate].
  destruct (dict_get fs (path_str p)) as [data|] eqn:Hfs.
  2:{ rewrite (main_without_file _ p) by (cbn; rewrite ?Hk; assumption).
      destruct (stat_outside (path_str p)) eqn:Hs;
        cbn [fst snd s_world s_env w_fs w_heap];
        (split; [|split; [reflexivity|]]).
      1,3: intros x [= <-]; now left.
      3:{ intros x [= <-]. right. repeat split. now exists p. }
      all: exists []; rewrite app_nil_r; repeat split; auto. }
  rewrite (main_run env fs hp p k data Hp Tp Hk Tk Hfs).
  destruct (max_bytes <? Z.of_nat (List.length data)).
  { cbn [fst snd s_world w_fs w_heap]. repeat split.
    - intros x [= <-]. now left.
    - eexists [_]. repeat split. auto. }
  cbv zeta.
  assert (G : forall (r : outcome unit) env',
             (forall x, r = Raises x -> is_ProcessorError x = true) ->
             let run :=
               (r, State env'
                     (World fs
                        (hp ++ [File data (Z.of_nat (List.length data))
                                  true]))) in
             (forall x,
                fst run = Raises x ->
                is_ProcessorError x = true \/
                (x = Builtin OSError /\
                 snd run = State env (World fs hp) /\
                 exists pkg_info_path,
                   dict_get env "pkg_info_path" = Some pkg_info_path /\
                   dict_get fs (path_str pkg_info_path) = None /\
                   stat_outside (path_str pkg_info_path) = stat_fails)) /\
             w_fs (s_world (snd run)) = fs /\
             exists created,
               w_heap (s_world (snd run)) = (hp ++ created)%list /\
               (List.length created <= 1)%nat /\
               forallb f_closed created = true).
  { intros r env' Hr. cbn. repeat split; [intros x Hx; left; now apply Hr|].
    eexists [_]. repeat split. auto. }
  destruct (fromstring data) as [root|].
  2:{ apply G. now intros x [= <-]. }
  destruct (String.eqb (tag root) k).
  { apply G. now intros x [= <-]. }
  destruct (recursive_element_search root k) as [tv|e].
  2:{ apply G. now intros x [= <-]. }
  destruct (truthy tv).
  2:{ apply G. now intros x [= <-]. }
  destruct (dict_get (env_after_root env root k) "target_value").
  - apply G. discriminate.
  - apply G. now intros x [= <-].
Qed.

(** ** An implementation of the interface for a fragment of XML

    The fragment: ASCII documents of one element, with elements that have
    double-quoted attributes, text and children; no declaration, comment,
    entity, namespace or carriage return.  A document outside of the
    fragment is rejected (the library accepts more).  [strip] is that of
    Python on ASCII strings, and [path_str] that of a path in normal
    form.  At a path that is no file of the table there is nothing, and a
    name beyond the limits of the system cannot be examined. *)
Module XmlFragment.

Import Fragment.

Definition is_name_start (c : ascii) : bool :=
  let n := code c in
  ((65 <=? n) && (n <=? 90)) || ((97 <=? n) && (n <=? 122)) || (n =? 95).

Definition is_name_char (c : ascii) : bool :=
  is_name_start c || is_digit c || (code c =? 45) || (code c =? 46).

Definition is_blank (c : ascii) : bool :=
  let n := code c in (n =? 32) || (n =? 9) || (n =? 10).

Fixpoint skip_blanks (s : string) : string :=
  match s with
  | String c s' => if is_blank c then skip_blanks s' else s
  | EmptyString => s
  end.

Fixpoint scan_name_chars (s : string) : string * string :=
  match s with
  | String c s' =>
      if is_name_char c
      then let (n, rest) := scan_name_chars s' in (String c n, rest)
      else (EmptyString, s)
  | EmptyString => (EmptyString, s)
  end.

Definition scan_name (s : string) : option (string * string) :=
  match s with
  | String c s' =>
      if is_name_start c
      then let (n, rest) := scan_name_chars s' in Some (String c n, rest)
      else None
  | EmptyString => None
  end.

(** The characters of an attribute value up to its closing quote. *)
Fixpoint scan_value (s : string) : option (string * string) :=
  match s with
  | EmptyString => None
  | String c s' =>
      if Ascii.eqb c quote then Some (EmptyString, s')
      else if (code c <? 32) || (127 <? code c) || (code c =? 60)
              || (code c =? 38)
      then None
      else
        match scan_value s' with
        | Some (v, rest) => Some (String c v, rest)
        | None => None
        end
  end.

(** Character data up to the next tag. *)
Fixpoint scan_text (s : string) : option (string * string) :=
  match s with
  | EmptyString => Some (EmptyString, s)
  | String c s' =>
      if code c =? 60 then Some (EmptyString, s)
      else if ((code c <? 32) && negb (is_blank c)) || (127 <? code c)
              || (code c =? 38) || (code c =? 62)
      then None
      else
        match scan_text s' with
        | Some (t, rest) => Some (String c t, rest)
        | None => None
        end
  end.

(** The attributes of a start tag, after the attributes [acc]; each is
    preceded by blanks, and no name comes twice. *)
Fixpoint scan_attrs (fuel : nat) (acc : list (string * string)) (s : string)
  : option (list (string * string) * string) :=
  match fuel with
  | O => None
  | S fuel' =>
      match skip_blanks s with
      | String "/" _ as rest => Some (acc, rest)
      | String ">" _ as rest => Some (acc, rest)
      | rest =>
          match s with
          | String c _ =>
              if is_blank c then
                match scan_name rest with
                | Some (k, String "=" (String q rest')) =>
                    if Ascii.eqb q quote then
                      match dict_get acc k, scan_value rest' with
                      | None, Some (v, rest'') =>
                          scan_attrs fuel' (acc ++ [(k, v)])%list rest''
                      | _, _ => None
                      end
                    else None
                | _ => None
                end
              else None
          | EmptyString => None
          end
      end
  end.

Definition optional_text (t : string) : option string :=
  match t with
  | EmptyString => None
  | _ => Some t
  end.

Fixpoint scan_element (fuel : nat) (s : string) : option (element * string) :=
  match fuel with
  | O => None
  | S fuel' =>
      match s with
      | String "<" s1 =>
          match scan_name s1 with
          | Some (name, s2) =>
              match scan_attrs (S (String.length s2)) [] s2 with
              | Some (attrs, String "/" (String ">" rest)) =>
                  Some (Element name attrs None [], rest)
              | Some (attrs, String ">" s3) =>
                  match scan_text s3 with
                  | Some (t, s4) =>
                      match scan_children fuel' s4 with
                      | Some (cs, String "<" (String "/" s5)) =>
                          match scan_name s5 with
                          | Some (name', s6) =>
                              if String.eqb name name' then
                                match skip_blanks s6 with
                                | String ">" rest =>
                                    Some (Element name attrs
                                            (optional_text t) cs, rest)
                                | _ => None
                                end
                              else None
                          | None => None
                          end
                      | _ => None
                      end
                  | None => None
                  end
              | _ => None
              end
          | None => None
          end
      | _ => None
      end
  end

(** The children of an element, each with the text behind it, up to the end
    tag. *)
with scan_children (fuel : nat) (s : string)
  : option (list element * string) :=
  match fuel with
  | O => None
  | S fuel' =>
      match s with
      | String "<" (String "/" _) => Some ([], s)
      | _ =>
          match scan_element fuel' s with
          | Some (c, rest) =>
              match scan_text rest with
              | Some (_, rest') =>
                  match scan_children fuel' rest' with
                  | Some (cs, rest'') => Some (c :: cs, rest'')
                  | None => None
                  end
              | None => None
              end
          | None => None
          end
      end
  end.

Definition parse (b : bytes) : option element :=
  match ascii_text b with
  | Some s =>
      match scan_element (2 * String.length s + 2) (skip_blanks s) with
      | Some (x, rest) =>
          match skip_blanks rest with
          | EmptyString => Some x
          | _ => None
          end
      | None => None
      end
  | None => None
  end.

(** The characters that [str.strip] removes, among the ASCII ones. *)
Definition is_space (c : ascii) : bool :=
  let n := code c in
  ((9 <=? n) && (n <=? 13)) || ((28 <=? n) && (n <=? 32)).

Fixpoint lstrip (s : string) : string :=
  match s with
  | String c s' => if is_space c then lstrip s' else s
  | EmptyString => s
  end.

(** [s] without the spaces at its end. *)
Fixpoint rstrip (s : string) : string :=
  match s with
  | EmptyString => EmptyString
  | String c s' =>
      match rstrip s' with
      | EmptyString => if is_space c then EmptyString else String c EmptyString
      | r => String c r
      end
  end.

(** The length of the longest component of a path; [run] is the length of
    the component that is being read. *)
Fixpoint longest_component (s : string) (run : nat) : nat :=
  match s with
  | EmptyString => run
  | String c r =>
      if Ascii.eqb c "/" then Nat.max run (longest_component r O)
      else longest_component r (S run)
  end.

(** The limits of the system: 255 bytes for a component and 4095 for a
    path ([ENAMETOOLONG] beyond). *)
Definition name_too_long (p : string) : bool :=
  (255 <? longest_component p O)%nat || (4095 <? String.length p)%nat.

(** A name of [n] letters. *)
Fixpoint name_of_length (n : nat) : string :=
  match n with
  | O => EmptyString
  | S n' => String "a" (name_of_length n')
  end.

#[export] Instance xml : XmlLib := {
  fromstring := parse;
  strip := fun s => rstrip (lstrip s);
  path_str := fun s => s;
  stat_outside := fun p => if name_too_long p then stat_fails else absent
}.

(** The state with the two input variables set and one file. *)
Definition inputs (path key : string) (data : string) : state :=
  State [("pkg_info_path", path); ("target_key", key)]
    (World [(path, list_byte_of_string (js data))] []).

End XmlFragment.

(** ** What [main] finds *)

(** X12.  The root element has the key as an attribute with a value that is
    not empty (and another tag): [main] stores the value as
    [target_value], and then succeeds when the root has a child and fails
    with "Unable to locate a matching value" when it has none, with
    [target_value] set all the same. *)
Theorem root_attribute_needs_child {lib : PyLib} {xml : XmlLib}
    env fs hp pkg_info_path target_key data root v :
  dict_get env "pkg_info_path" = Some pkg_info_path ->
  truthy (Some pkg_info_path) = true ->
  dict_get env "target_key" = Some target_key ->
  truthy (Some target_key) = true ->
  dict_get fs (path_str pkg_info_path) = Some data ->
  Z.of_nat (List.length data) <= max_bytes ->
  fromstring data = Some root ->
  get root target_key = Some v ->
  truthy (Some v) = true ->
  tag root <> target_key ->
  let run := main (State env (World fs hp)) in
  s_env (snd run) = dict_set env "target_value" v /\
  (children root = [] ->
   fst run
   = Raises (ProcessorError
               ("Unable to locate a matching value for " ++ target_key ++ "!")
               None)) /\
  (children root <> [] -> fst run = Returns tt).
Proof.
  intros Hp Tp Hk Tk Hfs Hmax Hroot Hv Tv Htag run. unfold run.
  rewrite (main_run env fs hp pkg_info_path target_key data Hp Tp Hk Tk Hfs).
  destruct (Z.ltb_spec max_bytes (Z.of_nat (List.length data))); [lia|].
  rewrite Hroot. cbv zeta.
  assert (He : env_after_root env root target_key
               = dict_set env "target_value" v).
  { unfold env_after_root. rewrite Hv. destruct v; [discriminate | reflexivity]. }
  rewrite He.
  destruct (String.eqb_spec (tag root) target_key); [contradiction|].
  destruct root as [t a txt [|c rest]];
    cbn [recursive_element_search children].
  - cbn [truthy snd fst s_env]. repeat split. congruence.
  - rewrite Hv, Tv, Tv.
    rewrite dict_get_set, String.eqb_refl. cbn [snd fst s_env].
    repeat split. intros Habs. discriminate.
Qed.

(** X13.  The root element does not have the key as an attribute: [main]
    leaves [self.env] as it was, whatever the search below the root finds.
    It succeeds only when [target_value] had a value before; when it had
    none and the search finds a value, [main] fails with the [KeyError] of
    ['target_value']. *)
Theorem value_below_root_is_not_stored {lib : PyLib} {xml : XmlLib}
    env fs hp pkg_info_path target_key data root :
  dict_get env "pkg_info_path" = Some pkg_info_path ->
  truthy (Some pkg_info_path) = true ->
  dict_get env "target_key" = Some target_key ->
  truthy (Some target_key) = true ->
  dict_get fs (path_str pkg_info_path) = Some data ->
  fromstring data = Some root ->
  truthy (get root target_key) = false ->
  let run := main (State env (World fs hp)) in
  s_env (snd run) = env /\
  (fst run = Returns tt -> dict_get env "target_value" <> None) /\
  (forall v,
     Z.of_nat (List.length data) <= max_bytes ->
     tag root <> target_key ->
     recursive_element_search root target_key = Ok (Some v) ->
     dict_get env "target_value" = None ->
     fst run
     = Raises (ProcessorError "" (Some (Builtin (KeyError "target_value"))))).
Proof.
  intros Hp Tp Hk Tk Hfs Hroot Hv run. unfold run.
  rewrite (main_run env fs hp pkg_info_path target_key data Hp Tp Hk Tk Hfs).
  assert (He : env_after_root env root target_key = env).
  { unfold env_after_root.
    destruct (get root target_key) as [[|c s]|]; try reflexivity.
    discriminate. }
  destruct (Z.ltb_spec max_bytes (Z.of_nat (List.length data))).
  { cbn [fst snd s_env]. repeat split; try discriminate. intros; lia. }
  rewrite Hroot. cbv zeta. rewrite He.
  destruct (String.eqb_spec (tag root) target_key).
  { cbn [fst snd s_env]. repeat split; try discriminate.
    intros; contradiction. }
  destruct (recursive_element_search root target_key) as [tv|e] eqn:Hsearch.
  2:{ cbn [fst snd s_env]. repeat split; discriminate. }
  destruct (truthy tv) eqn:Ttv.
  2:{ cbn [fst snd s_env]. repeat split; try discriminate.
      intros v _ _ [= ->] _.
      destruct (search_result_truthy _ _ _ Hsearch) as [Hn|Hn];
        [discriminate | congruence]. }
  destruct (dict_get env "target_value") eqn:Hstale;
    cbn [fst snd s_env]; repeat split; try discriminate.
Qed.

(** X14.  The tag of the root element is the key: [main] fails, whatever
    the document holds, with the [NameError] of the name
    [target_valuechild_element] (line 105), reported as a
    [ProcessorError]. *)
Theorem root_tag_is_key_fails {lib : PyLib} {xml : XmlLib}
    env fs hp pkg_info_path target_key data root :
  dict_get env "pkg_info_path" = Some pkg_info_path ->
  truthy (Some pkg_info_path) = true ->
  dict_get env "target_key" = Some target_key ->
  truthy (Some target_key) = true ->
  dict_get fs (path_str pkg_info_path) = Some data ->
  Z.of_nat (List.length data) <= max_bytes ->
  fromstring data = Some root ->
  tag root = target_key ->
  fst (main (State env (World fs hp)))
  = Raises (ProcessorError ""
              (Some (NameError "target_valuechild_element"))).
Proof.
  intros Hp Tp Hk Tk Hfs Hmax Hroot Htag.
  rewrite (main_run env fs hp pkg_info_path target_key data Hp Tp Hk Tk Hfs).
  destruct (Z.ltb_spec max_bytes (Z.of_nat (List.length data))); [lia|].
  rewrite Hroot. cbv zeta. rewrite Htag, String.eqb_refl. reflexivity.
Qed.

(** X15.  The input variables are checked before any file is touched: a
    [pkg_info_path] that is missing or empty, then a [target_key] that is
    missing or empty, then a path at which the system finds nothing, each
    make [main] fail with a [ProcessorError] that names the input.  The
    test of the path is [exists()], outside of the [try] statement: for a
    path that the system cannot examine it raises an [OSError], which
    leaves [main] as it is; and a path at which there is something that
    [open] does not accept (a directory) passes the test, and the [OSError]
    of the [open] is reported as a [ProcessorError].  In each case
    [self.env] and the file objects are left as they were. *)
Theorem inputs_are_checked_first {lib : PyLib} {xml : XmlLib} s :
  (truthy (dict_get (s_env s) "pkg_info_path") = false ->
   main s =
   (Raises (ProcessorError
              "Expected a 'pkg_info_path' input variable but none is set!"
              None), s)) /\
  (truthy (dict_get (s_env s) "pkg_info_path") = true ->
   truthy (dict_get (s_env s) "target_key") = false ->
   main s =
   (Raises (ProcessorError
              "Expected a 'target_key' input variable but none is set!"
              None), s)) /\
  (forall pkg_info_path,
     dict_get (s_env s) "pkg_info_path" = Some pkg_info_path ->
     truthy (Some pkg_info_path) = true ->
     truthy (dict_get (s_env s) "target_key") = true ->
     dict_get (w_fs (s_world s)) (path_str pkg_info_path) = None ->
     (stat_outside (path_str pkg_info_path) = absent ->
      main s =
      (Raises (ProcessorError
                 ("File from previous processor (pkg_info_path: "
                  ++ path_str pkg_info_path ++ ") does not exist!") None),
       s)) /\
     (stat_outside (path_str pkg_info_path) = stat_fails ->
      main s = (Raises (Builtin OSError), s)) /\
     (stat_outside (path_str pkg_info_path) = present ->
      main s = (Raises (ProcessorError "" (Some (Builtin OSError))), s))).
Proof.
  split; [apply main_without_path|].
  split; [apply main_without_key|].
  intros p Hp Tp Tk Hfs.
  rewrite (main_without_file s p Hp Tp Tk Hfs).
  repeat split; intros ->; reflexivity.
Qed.

(** ** Examples on documents *)

(** The version is an attribute of the root, which has no child. *)
Lemma root_attribute_needs_child_witness :
  fst (main (lib := Fragment.lib) (xml := XmlFragment.xml)
         (XmlFragment.inputs "PackageInfo" "version"
            "<pkg-info version='1.2'></pkg-info>"))
  = Raises (ProcessorError
              "Unable to locate a matching value for version!" None).
Proof.
  refine (proj1 (proj2
    (root_attribute_needs_child (lib := Fragment.lib)
       (xml := XmlFragment.xml)
       [("pkg_info_path", "PackageInfo"); ("target_key", "version")]
       [("PackageInfo",
         list_byte_of_string
           (Fragment.js "<pkg-info version='1.2'></pkg-info>"))]
       [] "PackageInfo" "version"
       (list_byte_of_string
          (Fragment.js "<pkg-info version='1.2'></pkg-info>"))
       (Element "pkg-info" [("version", "1.2")] None []) "1.2"
       _ _ _ _ _ _ _ _ _ _)) _); concrete.
Defined.

(** The version is the text of a child of the root. *)
Lemma value_below_root_is_not_stored_witness :
  fst (main (lib := Fragment.lib) (xml := XmlFragment.xml)
         (XmlFragment.inputs "PackageInfo" "version"
            "<pkg-info><version> 1.2 </version></pkg-info>"))
  = Raises (ProcessorError "" (Some (Builtin (KeyError "target_value")))).
Proof.
  refine (proj2 (proj2
    (value_below_root_is_not_stored (lib := Fragment.lib)
       (xml := XmlFragment.xml)
       [("pkg_info_path", "PackageInfo"); ("target_key", "version")]
       [("PackageInfo",
         list_byte_of_string
           (Fragment.js "<pkg-info><version> 1.2 </version></pkg-info>"))]
       [] "PackageInfo" "version"
       (list_byte_of_string
          (Fragment.js "<pkg-info><version> 1.2 </version></pkg-info>"))
       (Element "pkg-info" [] None
          [Element "version" [] (Some " 1.2 ") []])
       _ _ _ _ _ _ _)) "1.2" _ _ _ _); concrete.
Defined.

(** The document is the element of the key itself. *)
Lemma root_tag_is_key_fails_witness :
  fst (main (lib := Fragment.lib) (xml := XmlFragment.xml)
         (XmlFragment.inputs "PackageInfo" "version"
            "<version>1.2</version>"))
  = Raises (ProcessorError ""
              (Some (NameError "target_valuechild_element"))).
Proof.
  refine
    (root_tag_is_key_fails (lib := Fragment.lib) (xml := XmlFragment.xml)
       [("pkg_info_path", "PackageInfo"); ("target_key", "version")]
       [("PackageInfo",
         list_byte_of_string (Fragment.js "<version>1.2</version>"))]
       [] "PackageInfo" "version"
       (list_byte_of_string (Fragment.js "<version>1.2</version>"))
       (Element "version" [] (Some "1.2") [])
       _ _ _ _ _ _ _ _); concrete.
Defined.

(** The value is the text of the first child of the root. *)
Lemma search_result_origin_witness :
  recursive_element_search (xml := XmlFragment.xml)
    (Element "pkg-info" [] None [Element "version" [] (Some " 1.2 ") []])
    "version" = Ok (Some "1.2") /\
  "1.2" <> EmptyString.
Proof.
  split; [reflexivity|].
  exact (proj1
    (search_result_origin (xml := XmlFragment.xml)
       (Element "pkg-info" [] None [Element "version" [] (Some " 1.2 ") []])
       "version" "1.2" eq_refl)).
Defined.

(** The name of the file is too long for the system. *)
Lemma inputs_are_checked_first_witness :
  main (lib := Fragment.lib) (xml := XmlFragment.xml)
    (State [("pkg_info_path", XmlFragment.name_of_length 256);
            ("target_key", "version")] (World [] []))
  = (Raises (Builtin OSError),
     State [("pkg_info_path", XmlFragment.name_of_length 256);
            ("target_key", "version")] (World [] [])).
Proof.
  refine (proj1 (proj2 (proj2 (proj2
    (inputs_are_checked_first (lib := Fragment.lib) (xml := XmlFragment.xml)
       (State [("pkg_info_path", XmlFragment.name_of_length 256);
               ("target_key", "version")] (World [] []))))
    (XmlFragment.name_of_length 256) _ _ _ _)) _); vm_compute; reflexivity.
Defined.

End PackageInfoReader.

(** * HudlFileManager: from a download to a disk image

    A shallow embedding of [Hudl/HudlFileManager.py].

    - The file system (directories, links, the work of the archive tools) is
      a state of a type [FS] that the library changes; [pathlib], [re] and
      the methods of the base class [autopkglib.Unarchiver] are an interface
      ([HudlLib]).  A path is the text of its [pathlib.Path].
    - [self.env] is a dictionary of strings; [purge_destination] is only
      tested for truth, and a string that is not empty stands for a true
      value.
    - The questions [exists()], [is_dir()], [is_symlink()] and [glob] are
      taken to be answered: a path that the system cannot examine (their
      [OSError]) is not part of this model.  The operations that change the
      file system may fail. *)
Module HudlFileManager.

Import Proc.

(** An [OSError] of the system, with the text of its [strerror]. *)
Record os_error : Type := { strerror : string }.

Class HudlLib (FS : Type) : Type := {
  (** [str(pathlib.Path(s))] *)
  path_str : string -> string;
  (** [str(pathlib.Path(a, b))] *)
  path_join : string -> string -> string;
  (** [str(p.joinpath(p.parent, p.name.split("?")[0]))] *)
  without_query : string -> string;
  (** [p.name] and [p.suffix] *)
  path_name : string -> string;
  path_suffix : string -> string;
  (** [p.exists()], [p.is_dir()], [p.is_symlink()] *)
  path_exists : string -> FS -> bool;
  is_dir : string -> FS -> bool;
  is_symlink : string -> FS -> bool;
  (** [p.glob(pattern)], as the texts of the paths *)
  glob : string -> string -> FS -> list string;
  (** [p.mkdir(parents=True, exist_ok=True)], [p.unlink()] and
      [p.rename(target)] *)
  mkdir : string -> FS -> option os_error * FS;
  unlink : string -> FS -> option os_error * FS;
  rename : string -> string -> FS -> option os_error * FS;
  (** does [re] accept the pattern? *)
  re_compiles : string -> bool;
  (** [Unarchiver.EXTNS.keys()], [Unarchiver.get_archive_format] and
      [Unarchiver._extract] *)
  EXTNS_keys : list string;
  get_archive_format : string -> option string;
  _extract : string -> string -> string -> FS -> outcome unit * FS
}.

Section Processor.
Context {FS : Type} {lib : HudlLib FS}.

Record state : Type := State {
  s_env : list (string * string);
  s_fs : FS
}.

(** [self.env.get(key)] *)
Definition env_get (key : string) : P state (option string) := fun s =>
  (Returns (dict_get (s_env s) key), s).

(** [self.env[key]] *)
Definition env_getitem (key : string) : P state string := fun s =>
  match dict_get (s_env s) key with
  | Some v => (Returns v, s)
  | None => (Raises (Builtin (KeyError key)), s)
  end.

(** [self.env[key] = v] *)
Definition env_set (key v : string) : P state unit := fun s =>
  (Returns tt, State (dict_set (s_env s) key v) (s_fs s)).

(** A question to the file system. *)
Definition ask {A} (q : FS -> A) : P state A := fun s =>
  (Returns (q (s_fs s)), s).

(** An operation of the system: it returns, or raises its [OSError]. *)
Definition system (op : FS -> option os_error * FS)
  : P state (option os_error) := fun s =>
  let (err, fs) := op (s_fs s) in (Returns err, State (s_env s) fs).

Definition raise_OSError (err : option os_error) : P state unit :=
  match err with
  | None => pret tt
  | Some _ => praise (Builtin OSError)
  end.

(** One round of the loop of lines 97-106. *)
Definition remove_entry (file_path : string) : P state unit :=
  dir <-- ask (is_dir file_path) ;;
  link <-- ask (is_symlink file_path) ;;
  if dir && negb link
  then
    (* [shutil.rmtree(path)]: the name [path] is not defined; [NameError]
       is no [OSError] and passes the [except] clause *)
    praise (NameError "path")
  else
    err <-- system (unlink file_path) ;;
    match err with
    | None => pret tt
    | Some err =>
        praise (ProcessorError
                  ("Can't remove " ++ file_path ++ ": " ++ strerror err)
                  None)
    end.

Fixpoint purge (paths : list string) : P state unit :=
  match paths with
  | [] => pret tt
  | file_path :: rest => _ <-- remove_entry file_path ;; purge rest
  end.

(** Lines 118-148: a download that is no disk image is unpacked, and a disk
    image is looked for at the destination. *)
Definition unpack (new_pathname destination_path : string) : P state unit :=
  let file_fmt := get_archive_format new_pathname in
  _ <-- (if truthy file_fmt then pret tt
         else praise (ProcessorError
                ("Can't guess archive format for filename '"
                 ++ path_name new_pathname ++ "'") None)) ;;
  let file_fmt := match file_fmt with Some f => f | None => "" end in
  _ <-- (if existsb (String.eqb file_fmt) EXTNS_keys then pret tt
         else praise (ProcessorError
                ("'" ++ file_fmt ++ "' is not valid for the 'archive_format' "
                 ++ "variable. Must be one of "
                 ++ String.concat ", " EXTNS_keys ++ ".") None)) ;;
  (* Extract archived file *)
  _ <-- (fun s =>
           let (r, fs) :=
             _extract file_fmt new_pathname destination_path (s_fs s) in
           (r, State (s_env s) fs)) ;;
  (* Find DMG at destination_path *)
  recipe_name <-- env_getitem "NAME" ;;
  let file_regex := recipe_name ++ ".*\.dmg" in
  paths <-- ask (glob destination_path "*.dmg") ;;
  match paths with
  | [] => pret tt
  | file_path :: _ =>
      (* [re.match(file_regex, file_path)]: the pattern is compiled, and
         then matched against a path object, which is no string *)
      if re_compiles file_regex then praise (Builtin TypeError)
      else praise re_error
  end.

(** Lines 108-162: the [try] statement. *)
Definition process (pathname destination_path : string) : P state unit :=
  reraise_as_ProcessorError
    (let new_pathname := without_query pathname in
     (* Rename file to new_pathname: *)
     err <-- system (rename pathname new_pathname) ;;
     _ <-- raise_OSError err ;;
     _ <-- (if String.eqb (path_suffix new_pathname) ".dmg"
            then env_set "dmg_path" new_pathname
            else unpack new_pathname destination_path) ;;
     (* Make sure we've found a DMG *)
     dmg_path <-- env_get "dmg_path" ;;
     _ <-- (if truthy dmg_path then pret tt
            else praise (ProcessorError
                   "Unable to locate a DMG after processing!" None)) ;;
     (* the message of [self.output] *)
     _ <-- env_getitem "dmg_path" ;;
     pret tt).

Definition main : P state unit :=
  (* Handle some defaults for archive_path and destination_path *)
  default <-- env_get "pathname" ;;
  archive_path <-- env_get "archive_path" ;;
  let pathname := match archive_path with
                  | Some v => Some v
                  | None => default
                  end in
  _ <-- (if truthy pathname then pret tt
         else praise (ProcessorError
                "Expected a 'pathname' input variable but none is set!"
                None)) ;;
  (* Convert to pathlib.Path for further processing *)
  pathname <-- env_getitem "pathname" ;;
  let pathname := path_str pathname in
  found <-- ask (path_exists pathname) ;;
  _ <-- (if found then pret tt
         else praise (ProcessorError
                ("File from previous processor (pathname: " ++ pathname
                 ++ ") does not exist!") None)) ;;
  recipe_cache_dir <-- env_getitem "RECIPE_CACHE_DIR" ;;
  name <-- env_getitem "NAME" ;;
  destination_path <-- env_get "destination_path" ;;
  let destination_path :=
    match destination_path with
    | Some v => path_str v
    | None => path_join recipe_cache_dir name
    end in
  (* Make the destination path *)
  err <-- system (mkdir destination_path) ;;
  _ <-- raise_OSError err ;;
  purge_destination <-- env_get "purge_destination" ;;
  _ <-- (if truthy purge_destination
         then
           paths <-- ask (glob destination_path "*") ;;
           purge paths
         else pret tt) ;;
  process pathname destination_path.

End Processor.
Arguments state FS : clear implicits.

(** ** The input variables *)

Section Inputs.
Context {FS : Type} {lib : HudlLib FS}.

(** X16.  [archive_path] is only tested, never used: when it is set to a
    string that is not empty and [pathname] is not set, [main] fails with
    the bare [KeyError] of ['pathname'], not with a [ProcessorError]; and
    when it is set to the empty string, [main] asks for a [pathname] even
    though there is one.  Nothing is changed. *)
Theorem archive_path_is_only_tested env fs archive_path :
  dict_get env "archive_path" = Some archive_path ->
  (truthy (Some archive_path) = true ->
   dict_get env "pathname" = None ->
   main (State env fs) = (Raises (Builtin (KeyError "pathname")), State env fs))
  /\
  (archive_path = "" ->
   main (State env fs)
   = (Raises (ProcessorError
                "Expected a 'pathname' input variable but none is set!" None),
      State env fs)).
Proof.
  intros Ha. split.
  - intros Ta Hp. unfold main.
    unfold pbind at 1, env_get at 1; cbn [s_env].
    unfold pbind at 1, env_get at 1; cbn [s_env]. rewrite Ha, Ta.
    unfold pbind at 1, pret at 1.
    unfold pbind at 1, env_getitem at 1; cbn [s_env]. now rewrite Hp.
  - intros ->. unfold main.
    unfold pbind at 1, env_get at 1; cbn [s_env].
    unfold pbind at 1, env_get at 1; cbn [s_env]. now rewrite Ha.
Qed.

(** X17.  [RECIPE_CACHE_DIR] and [NAME] are read before
    [destination_path] is looked at (the default of the lookup is computed
    first): when one of them is not set, [main] fails with a bare [KeyError]
    even though [destination_path] is given, before anything is changed. *)
Theorem cache_dir_and_name_are_required env fs pathname missing :
  dict_get env "archive_path" = None ->
  dict_get env "pathname" = Some pathname ->
  truthy (Some pathname) = true ->
  path_exists (path_str pathname) fs = true ->
  (dict_get env "RECIPE_CACHE_DIR" = None /\ missing = "RECIPE_CACHE_DIR") \/
  (dict_get env "RECIPE_CACHE_DIR" <> None /\
   dict_get env "NAME" = None /\ missing = "NAME") ->
  main (State env fs) = (Raises (Builtin (KeyError missing)), State env fs).
Proof.
  intros Ha Hp Tp He Hm. unfold main.
  unfold pbind at 1, env_get at 1; cbn [s_env].
  unfold pbind at 1, env_get at 1; cbn [s_env]. rewrite Ha, Hp, Tp.
  unfold pbind at 1, pret at 1.
  unfold pbind at 1, env_getitem at 1; cbn [s_env]. rewrite Hp.
  unfold pbind at 1, ask at 1; cbn [s_fs]. rewrite He.
  unfold pbind at 1, pret at 1.
  unfold pbind at 1, env_getitem at 1; cbn [s_env].
  destruct Hm as [[Hc ->] | (Hc & Hn & ->)].
  - now rewrite Hc.
  - destruct (dict_get env "RECIPE_CACHE_DIR"); [|contradiction].
    unfold pbind at 1, env_getitem at 1; cbn [s_env]. now rewrite Hn.
Qed.

End Inputs.

(** ** Runs of [main] *)

Section Runs.
Context {FS : Type} {lib : HudlLib FS}.

(** The destination of a run. *)
Definition destination (env : list (string * string)) : string :=
  match dict_get env "destination_path" with
  | Some v => path_str v
  | None =>
      path_join
        (match dict_get env "RECIPE_CACHE_DIR" with Some c => c | None => "" end)
        (match dict_get env "NAME" with Some n => n | None => "" end)
  end.

(** The path that [main] works on: the text of [pathname]. *)
Definition download (env : list (string * string)) : string :=
  path_str (match dict_get env "pathname" with Some p => p | None => "" end).

(** The input variables are there, and so is the file. *)
Definition ready (env : list (string * string)) (fs : FS) : Prop :=
  truthy (match dict_get env "archive_path" with
          | Some v => Some v
          | None => dict_get env "pathname"
          end) = true /\
  dict_get env "pathname" <> None /\
  path_exists (download env) fs = true /\
  dict_get env "RECIPE_CACHE_DIR" <> None /\
  dict_get env "NAME" <> None.

(** [main] from the purge on, once the destination is made. *)
Lemma main_from_purge env fs fs1 :
  ready env fs ->
  mkdir (destination env) fs = (None, fs1) ->
  main (State env fs) =
  pbind (if truthy (dict_get env "purge_destination")
         then purge (glob (destination env) "*" fs1)
         else pret tt)
    (fun _ => process (download env) (destination env))
    (State env fs1).
Proof.
  intros (Tp & Hp & He & Hc & Hn) Hm. unfold main, download, destination in *.
  destruct (dict_get env "pathname") as [p|] eqn:Ep; [|contradiction].
  destruct (dict_get env "RECIPE_CACHE_DIR") as [c|] eqn:Ec; [|contradiction].
  destruct (dict_get env "NAME") as [n|] eqn:En; [|contradiction].
  unfold pbind at 1, env_get at 1; cbn [s_env]. rewrite Ep.
  unfold pbind at 1, env_get at 1; cbn [s_env]. rewrite Tp.
  unfold pbind at 1, pret at 1.
  unfold pbind at 1, env_getitem at 1; cbn [s_env]. rewrite Ep.
  unfold pbind at 1, ask at 1; cbn [s_fs]. rewrite He.
  unfold pbind at 1, pret at 1.
  unfold pbind at 1, env_getitem at 1; cbn [s_env]. rewrite Ec.
  unfold pbind at 1, env_getitem at 1; cbn [s_env]. rewrite En.
  unfold pbind at 1, env_get at 1; cbn [s_env].
  unfold pbind at 1, system at 1; cbn [s_fs s_env]. rewrite Hm.
  unfold pbind at 1, raise_OSError at 1, pret at 1.
  unfold pbind at 1, env_get at 1; cbn [s_env].
  destruct (truthy (dict_get env "purge_destination")); [|reflexivity].
  unfold pbind at 1 3, ask at 1; cbn [s_fs]. reflexivity.
Qed.

(** The purge leaves [self.env] alone. *)
Lemma purge_keeps_env paths env fs :
  s_env (snd (purge paths (State env fs))) = env.
Proof.
  revert fs. induction paths as [|file_path rest IH]; intros fs.
  - reflexivity.
  - cbn [purge]. unfold pbind at 1, remove_entry.
    unfold pbind at 1, ask at 1; cbn [s_fs].
    unfold pbind at 1, ask at 1; cbn [s_fs].
    destruct (is_dir file_path fs && negb (is_symlink file_path fs));
      [reflexivity|].
    unfold pbind at 1, system at 1; cbn [s_fs s_env].
    destruct (unlink file_path fs) as [[err|] fs']; [reflexivity|].
    unfold pret at 1. apply IH.
Qed.

Lemma unpack_outcome new_pathname destination_path env fs r s' :
  unpack new_pathname destination_path (State env fs) = (r, s') ->
  s_env s' = env /\
  (r = Returns tt -> glob destination_path "*.dmg" (s_fs s') = []).
Proof.
  unfold unpack.
  unfold pbind at 1.
  destruct (truthy (get_archive_format new_pathname)).
  2:{ intros [= <- <-]. split; [reflexivity | discriminate]. }
  unfold pret at 1. unfold pbind at 1.
  destruct (existsb _ EXTNS_keys).
  2:{ intros [= <- <-]. split; [reflexivity | discriminate]. }
  unfold pret at 1. unfold pbind at 1. cbn [s_fs s_env].
  destruct (_extract _ new_pathname destination_path fs) as [[[]|x] fs2].
  2:{ intros [= <- <-]. split; [reflexivity | discriminate]. }
  unfold pbind at 1, env_getitem at 1; cbn [s_env].
  destruct (dict_get env "NAME") as [n|].
  2:{ intros [= <- <-]. split; [reflexivity | discriminate]. }
  unfold pbind at 1, ask at 1; cbn [s_fs].
  destruct (glob destination_path "*.dmg" fs2) as [|file_path rest] eqn:Hg.
  - intros [= <- <-]. split; [reflexivity | intros _; exact Hg].
  - destruct (re_compiles _); intros [= <- <-];
      (split; [reflexivity | discriminate]).
Qed.

Lemma process_outcome pathname destination_path env fs r s' :
  process pathname destination_path (State env fs) = (r, s') ->
  (forall x, r = Raises x -> is_ProcessorError x = true) /\
  (r = Returns tt ->
   if String.eqb (path_suffix (without_query pathname)) ".dmg"
   then s_env s' = dict_set env "dmg_path" (without_query pathname)
   else s_env s' = env /\ truthy (dict_get env "dmg_path") = true /\
        glob destination_path "*.dmg" (s_fs s') = []).
Proof.
  unfold process, reraise_as_ProcessorError.
  match goal with
  | |- (match ?c ?s with _ => _ end) = _ -> _ =>
      destruct (c s) as [[[]|x] s1] eqn:Hrun
  end.
  2:{ intros H. split; [|intros ->; destruct (is_ProcessorError x);
                          discriminate].
      intros y ->. destruct (is_ProcessorError x) eqn:E;
        injection H as <- <-; [exact E | reflexivity]. }
  intros [= <- <-]. split; [discriminate|]. intros _.
  cbv zeta in Hrun.
  unfold pbind at 1, system at 1 in Hrun; cbn [s_fs s_env] in Hrun.
  destruct (rename pathname (without_query pathname) fs) as [[err|] fs1];
    [discriminate|].
  unfold pbind at 1, raise_OSError at 1, pret at 1 in Hrun.
  unfold pbind at 1 in Hrun.
  destruct (String.eqb (path_suffix (without_query pathname)) ".dmg").
  - unfold env_set at 1 in Hrun; cbn [s_env s_fs] in Hrun.
    unfold pbind at 1, env_get at 1 in Hrun; cbn [s_env] in Hrun.
    unfold pbind at 1 in Hrun.
    destruct (truthy _); [|discriminate].
    unfold pret at 1, pbind, env_getitem in Hrun; cbn [s_env] in Hrun.
    destruct (dict_get _ "dmg_path"); [|discriminate].
    now injection Hrun as <-.
  - destruct (unpack (without_query pathname) destination_path
                (State env fs1)) as [[[]|x] s2] eqn:Hu; [|discriminate].
    destruct (unpack_outcome _ _ _ _ _ _ Hu) as [Henv Hglob].
    destruct s2 as [env2 fs2]. cbn [s_env s_fs] in *. subst env2.
    unfold pbind at 1, env_get at 1 in Hrun; cbn [s_env] in Hrun.
    unfold pbind at 1 in Hrun.
    destruct (truthy (dict_get env "dmg_path")); [|discriminate].
    unfold pret at 1, pbind, env_getitem in Hrun; cbn [s_env] in Hrun.
    destruct (dict_get env "dmg_path"); [|discriminate].
    injection Hrun as <-. cbn [s_env s_fs]. auto.
Qed.

End Runs.

Section Facts.
Context {FS : Type} {lib : HudlLib FS}.


(** The run of [main] up to a step that fails. *)
Ltac run_to_failure :=
  cbv [main pbind env_get env_getitem ask pret praise system raise_OSError
       s_env s_fs];
  repeat match goal with
         | H : _ = _ |- _ => rewrite H
         end;
  reflexivity.

(** [main] stops at its input variables, or makes the destination. *)
Lemma main_cases env fs :
  (exists x,
     main (State env fs) = (Raises x, State env fs) /\
     (is_ProcessorError x = true \/
      x = Builtin (KeyError "pathname") \/
      x = Builtin (KeyError "RECIPE_CACHE_DIR") \/
      x = Builtin (KeyError "NAME"))) \/
  (ready env fs /\
   exists err fs1, mkdir (destination env) fs = (err, fs1) /\
     (err <> None ->
      main (State env fs) = (Raises (Builtin OSError), State env fs1))).
Proof.
  unfold ready, download, destination.
  destruct (truthy match dict_get env "archive_path" with
                   | Some v => Some v
                   | None => dict_get env "pathname"
                   end) eqn:Tp.
  2:{ left. eexists. split; [run_to_failure | now left]. }
  destruct (dict_get env "pathname") as [p|] eqn:Ep.
  2:{ left. eexists. split; [run_to_failure | right; now left]. }
  destruct (path_exists (path_str p) fs) eqn:He.
  2:{ left. eexists. split; [run_to_failure | now left]. }
  destruct (dict_get env "RECIPE_CACHE_DIR") as [c|] eqn:Ec.
  2:{ left. eexists. split; [run_to_failure | right; right; now left]. }
  destruct (dict_get env "NAME") as [n|] eqn:En.
  2:{ left. eexists. split; [run_to_failure | right; right; now right]. }
  right. split; [repeat split; congruence|].
  destruct (mkdir match dict_get env "destination_path" with
                  | Some v => path_str v
                  | None => path_join c n
                  end fs) as [[err|] fs1] eqn:Hm; eexists _, _;
    (split; [reflexivity|]).
  - intros _. run_to_failure.
  - intros H. now destruct H.
Qed.

(** ** The purge *)

(** X18.  With [purge_destination] set, a directory (that is no link) as
    the first entry of the destination stops [main]: [shutil.rmtree] is
    called on a name that is not defined, and the [NameError] leaves [main]
    as it is, not as a [ProcessorError].  Nothing has been removed. *)
Theorem purge_stops_at_directory env fs fs1 file_path rest :
  ready env fs ->
  mkdir (destination env) fs = (None, fs1) ->
  truthy (dict_get env "purge_destination") = true ->
  glob (destination env) "*" fs1 = file_path :: rest ->
  is_dir file_path fs1 = true ->
  is_symlink file_path fs1 = false ->
  main (State env fs) = (Raises (NameError "path"), State env fs1).
Proof.
  intros Hr Hm Tp Hg Hd Hl.
  rewrite (main_from_purge env fs fs1 Hr Hm), Tp, Hg.
  unfold pbind at 1. cbn [purge].
  unfold pbind at 1, remove_entry.
  unfold pbind at 1, ask at 1; cbn [s_fs].
  unfold pbind at 1, ask at 1; cbn [s_fs].
  now rewrite Hd, Hl.
Qed.

(** ** The disk image *)

(** X19.  When [main] succeeds, [dmg_path] is the renamed download if that
    has the suffix [.dmg]; if it has not, [self.env] is as it was:
    [dmg_path] had a value before, and no [*.dmg] was at the destination
    after the archive was unpacked.  A disk image that comes out of an
    archive is never returned (the search for it fails on the first
    candidate). *)
Theorem only_a_disk_image_sets_dmg_path env fs s' :
  main (State env fs) = (Returns tt, s') ->
  let new_pathname := without_query (download env) in
  if String.eqb (path_suffix new_pathname) ".dmg"
  then s_env s' = dict_set env "dmg_path" new_pathname
  else s_env s' = env /\ truthy (dict_get env "dmg_path") = true /\
       glob (destination env) "*.dmg" (s_fs s') = [].
Proof.
  intros Hrun new_pathname.
  destruct (main_cases env fs) as [(x & Hx & _) | (Hr & err & fs1 & Hm & He)].
  { rewrite Hx in Hrun. discriminate. }
  destruct err as [err|].
  { rewrite He in Hrun by discriminate. discriminate. }
  rewrite (main_from_purge env fs fs1 Hr Hm) in Hrun.
  unfold pbind in Hrun.
  match type of Hrun with
  | (match ?c with _ => _ end) = _ => destruct c as [[[]|x] s1] eqn:Hp
  end; [|discriminate].
  assert (Henv : s_env s1 = env).
  { destruct (truthy (dict_get env "purge_destination")).
    - pose proof (purge_keeps_env (glob (destination env) "*" fs1) env fs1)
        as K. now rewrite Hp in K.
    - now injection Hp as <-. }
  destruct s1 as [env1 fs2]. cbn [s_env] in Henv. subst env1.
  destruct (process_outcome _ _ _ _ _ _ Hrun) as [_ H].
  exact (H eq_refl).
Qed.

(** X20.  A disk image that comes out of an archive stops [main]: when the
    download is no disk image, its format is known, the archive is unpacked
    and a [*.dmg] is at the destination, the first candidate is given to
    [re.match] as a path object, and [main] fails with a [ProcessorError]
    made from the [TypeError] of the match (or from the error of a pattern
    that [re] does not accept).  [dmg_path] is not set; the download is
    renamed and the archive unpacked. *)
Theorem unpacked_disk_image_is_not_found
    env fs fs1 fs2 fs3 new_pathname name fmt file_path rest :
  ready env fs ->
  mkdir (destination env) fs = (None, fs1) ->
  truthy (dict_get env "purge_destination") = false ->
  new_pathname = without_query (download env) ->
  rename (download env) new_pathname fs1 = (None, fs2) ->
  String.eqb (path_suffix new_pathname) ".dmg" = false ->
  get_archive_format new_pathname = Some fmt ->
  truthy (Some fmt) = true ->
  existsb (String.eqb fmt) EXTNS_keys = true ->
  _extract fmt new_pathname (destination env) fs2 = (Returns tt, fs3) ->
  dict_get env "NAME" = Some name ->
  glob (destination env) "*.dmg" fs3 = file_path :: rest ->
  main (State env fs)
  = (Raises (ProcessorError ""
               (Some (if re_compiles (name ++ ".*\.dmg")
                      then Builtin TypeError else re_error))),
     State env fs3).
Proof.
  intros Hr Hm Tp -> Hn Hs Hf Tf Hk Hx En Hg.
  rewrite (main_from_purge env fs fs1 Hr Hm), Tp.
  unfold pbind at 1, pret at 1.
  unfold process, reraise_as_ProcessorError. cbv zeta.
  unfold pbind at 1, system at 1; cbn [s_fs s_env]. rewrite Hn.
  unfold pbind at 1, raise_OSError at 1, pret at 1.
  unfold pbind at 1. rewrite Hs.
  unfold unpack. rewrite Hf, Tf.
  unfold pbind at 1, pret at 1.
  unfold pbind at 1. rewrite Hk. unfold pret at 1.
  unfold pbind at 1. cbn [s_fs s_env]. rewrite Hx.
  unfold pbind at 1, env_getitem at 1; cbn [s_env]. rewrite En.
  unfold pbind at 1, ask at 1; cbn [s_fs]. rewrite Hg.
  now destruct (re_compiles (name ++ ".*\.dmg")).
Qed.

(** ** What reaches the caller *)


End Facts.

(** ** A small file system for examples

    Paths in normal form with their kinds; the operations follow the system
    on such paths.  The archive tool unpacks nothing, and only the extension
    [.zip] is known.  The instance serves to run the processor on
    examples. *)
Module Example.

Inductive kind : Type := file | directory | link.

Definition FS : Type := list (string * kind).

Fixpoint has_slash (s : string) : bool :=
  match s with
  | EmptyString => false
  | String c r => Ascii.eqb c "/" || has_slash r
  end.

(** The last component of a path. *)
Fixpoint name_of (s : string) : string :=
  match s with
  | EmptyString => EmptyString
  | String c r =>
      if has_slash r then name_of r
      else if Ascii.eqb c "/" then r else s
  end.

(** The path without its last component. *)
Definition parent_of (s : string) : string :=
  substring 0 (String.length s - String.length (name_of s) - 1) s.

(** The part of a string from its last dot on. *)
Fixpoint from_last_dot (s : string) : option string :=
  match s with
  | EmptyString => None
  | String c r =>
      match from_last_dot r with
      | Some x => Some x
      | None => if Ascii.eqb c "." then Some s else None
      end
  end.

(** The suffix of a name: from its last dot on, when the dot is neither the
    first nor the last character. *)
Definition suffix_of (p : string) : string :=
  match name_of p with
  | String _ r =>
      match from_last_dot r with
      | Some (String d (String c x)) => String d (String c x)
      | _ => EmptyString
      end
  | EmptyString => EmptyString
  end.

Fixpoint before_query (s : string) : string :=
  match s with
  | EmptyString => EmptyString
  | String c r => if Ascii.eqb c "?" then EmptyString
                  else String c (before_query r)
  end.

(** The path with its last component cut at the first ["?"]. *)
Definition cut_query (p : string) : string :=
  (parent_of p ++ "/" ++ before_query (name_of p))%string.

Definition kind_of (p : string) (fs : FS) : option kind := dict_get fs p.

Definition is_kind (k : kind) (p : string) (fs : FS) : bool :=
  match kind_of p fs, k with
  | Some file, file | Some directory, directory | Some link, link => true
  | _, _ => false
  end.

Definition remove (p : string) (fs : FS) : FS :=
  filter (fun e => negb (String.eqb (fst e) p)) fs.

Definition entries (dir pattern : string) (fs : FS) : list string :=
  map fst
    (filter
       (fun e =>
          String.eqb (parent_of (fst e)) dir
          && (String.eqb pattern "*"
              || String.eqb (suffix_of (fst e)) ".dmg"))
       fs).

Definition failed (text : string) : option os_error :=
  Some {| strerror := text |}.

#[export] Instance lib : HudlLib FS := {
  path_str := fun s => s;
  path_join := fun a b => (a ++ "/" ++ b)%string;
  without_query := cut_query;
  path_name := name_of;
  path_suffix := suffix_of;
  path_exists := fun p fs =>
    match kind_of p fs with Some _ => true | None => false end;
  is_dir := is_kind directory;
  is_symlink := is_kind link;
  glob := entries;
  mkdir := fun p fs =>
    match kind_of p fs with
    | Some directory => (None, fs)
    | Some _ => (failed "File exists", fs)
    | None => (None, (fs ++ [(p, directory)])%list)
    end;
  unlink := fun p fs =>
    match kind_of p fs with
    | Some directory => (failed "Is a directory", fs)
    | Some _ => (None, remove p fs)
    | None => (failed "No such file or directory", fs)
    end;
  rename := fun a b fs =>
    match kind_of a fs with
    | Some k => (None, (remove b (remove a fs) ++ [(b, k)])%list)
    | None => (failed "No such file or directory", fs)
    end;
  re_compiles := fun _ => true;
  EXTNS_keys := ["zip"; "tar_gzip"; "tar_bzip2"; "tar"; "gzip"];
  get_archive_format := fun p =>
    if String.eqb (suffix_of p) ".zip" then Some "zip" else None;
  _extract := fun _ _ _ fs => (Returns tt, fs)
}.

(** The variables that a recipe sets, with a download. *)
Definition recipe (pathname : string) : list (string * string) :=
  [("pathname", pathname); ("RECIPE_CACHE_DIR", "/cache"); ("NAME", "Hudl")].

End Example.

(** ** Examples on the small file system *)

(** Only [archive_path] is set. *)
Lemma archive_path_is_only_tested_witness :
  main (lib := Example.lib)
    (State [("archive_path", "/dl/Hudl.dmg")] [("/dl/Hudl.dmg", Example.file)])
  = (Raises (Builtin (KeyError "pathname")),
     State [("archive_path", "/dl/Hudl.dmg")]
       [("/dl/Hudl.dmg", Example.file)]).
Proof.
  refine (proj1
    (archive_path_is_only_tested (lib := Example.lib)
       [("archive_path", "/dl/Hudl.dmg")] [("/dl/Hudl.dmg", Example.file)]
       "/dl/Hudl.dmg" _) _ _); reflexivity.
Defined.

(** A destination is given, but no [RECIPE_CACHE_DIR]. *)
Lemma cache_dir_and_name_are_required_witness :
  main (lib := Example.lib)
    (State [("pathname", "/dl/Hudl.dmg"); ("destination_path", "/out");
            ("NAME", "Hudl")]
       [("/dl/Hudl.dmg", Example.file)])
  = (Raises (Builtin (KeyError "RECIPE_CACHE_DIR")),
     State [("pathname", "/dl/Hudl.dmg"); ("destination_path", "/out");
            ("NAME", "Hudl")]
       [("/dl/Hudl.dmg", Example.file)]).
Proof.
  refine
    (cache_dir_and_name_are_required (lib := Example.lib)
       [("pathname", "/dl/Hudl.dmg"); ("destination_path", "/out");
        ("NAME", "Hudl")]
       [("/dl/Hudl.dmg", Example.file)] "/dl/Hudl.dmg" "RECIPE_CACHE_DIR"
       _ _ _ _ _); try reflexivity.
  left. split; reflexivity.
Defined.

(** The destination holds a directory and is to be purged. *)
Lemma purge_stops_at_directory_witness :
  main (lib := Example.lib)
    (State (("purge_destination", "yes") :: Example.recipe "/dl/Hudl.dmg")
       [("/dl/Hudl.dmg", Example.file); ("/cache/Hudl", Example.directory);
        ("/cache/Hudl/old", Example.directory)])
  = (Raises (NameError "path"),
     State (("purge_destination", "yes") :: Example.recipe "/dl/Hudl.dmg")
       [("/dl/Hudl.dmg", Example.file); ("/cache/Hudl", Example.directory);
        ("/cache/Hudl/old", Example.directory)]).
Proof.
  refine
    (purge_stops_at_directory (lib := Example.lib)
       (("purge_destination", "yes") :: Example.recipe "/dl/Hudl.dmg")
       [("/dl/Hudl.dmg", Example.file); ("/cache/Hudl", Example.directory);
        ("/cache/Hudl/old", Example.directory)]
       _ "/cache/Hudl/old" [] _ _ _ _ _ _); try reflexivity.
  repeat split; discriminate.
Defined.

(** A disk image is downloaded from an address with a query. *)
Lemma only_a_disk_image_sets_dmg_path_witness :
  s_env (snd (main (lib := Example.lib)
                (State (Example.recipe "/dl/Hudl.dmg?x=1")
                   [("/dl/Hudl.dmg?x=1", Example.file)])))
  = (Example.recipe "/dl/Hudl.dmg?x=1" ++ [("dmg_path", "/dl/Hudl.dmg")])%list.
Proof.
  exact
    (only_a_disk_image_sets_dmg_path (lib := Example.lib)
       (Example.recipe "/dl/Hudl.dmg?x=1")
       [("/dl/Hudl.dmg?x=1", Example.file)] _ eq_refl).
Defined.

(** An archive is downloaded, and a disk image is at the destination. *)
Lemma unpacked_disk_image_is_not_found_witness :
  main (lib := Example.lib)
    (State (Example.recipe "/dl/Hudl.zip")
       [("/dl/Hudl.zip", Example.file); ("/cache/Hudl", Example.directory);
        ("/cache/Hudl/Hudl.dmg", Example.file)])
  = (Raises (ProcessorError "" (Some (Builtin TypeError))),
     State (Example.recipe "/dl/Hudl.zip")
       [("/cache/Hudl", Example.directory);
        ("/cache/Hudl/Hudl.dmg", Example.file);
        ("/dl/Hudl.zip", Example.file)]).
Proof.
  refine
    (unpacked_disk_image_is_not_found (lib := Example.lib)
       (Example.recipe "/dl/Hudl.zip")
       [("/dl/Hudl.zip", Example.file); ("/cache/Hudl", Example.directory);
        ("/cache/Hudl/Hudl.dmg", Example.file)]
       _ _ _ "/dl/Hudl.zip" "Hudl" "zip" "/cache/Hudl/Hudl.dmg" []
       _ _ _ _ _ _ _ _ _ _ _ _); try reflexivity.
  repeat split; discriminate.
Defined.


End HudlFileManager.
